(** * weatherApp: the normalisation core of [src/weatherApi.ts]

    A shallow embedding of class [OpenMeteoAPI]: the weather-code
    classifier, the wind-rose helper, the glyph table and the two
    formatters [formatCurrentWeather] / [formatForecast] together with the
    facade [getWeatherAndForecast].

    Conventions of the embedding.
    - A JavaScript [number] is a value of type [number]: an exact rational,
      [NaN] or one of the two infinities.  Every finite double is a
      rational, [Math.round], [Math.min] and [Math.max] are exact on
      doubles, and the binary rounding of [+], [*] and [/] is not modelled
      (neither is the sign of zero).
    - [undefined] is [None]; reading an array out of range gives [None].
    - A thrown exception is the left injection of a sum. *)

From Stdlib Require Import ZArith QArith Qround Qminmax.
From Stdlib Require Import Bool Ascii String List Permutation Lia Lqa.
Import ListNotations.

Local Open Scope Z_scope.

(** ** JavaScript numbers *)

Inductive number : Type :=
| Num (q : Q)
| NaN
| Infinity
| NegInfinity.

(** [ToNumber] on a value that is a finite number or [undefined]. *)
Definition ToNumber (v : option Q) : number :=
  match v with
  | Some q => Num q
  | None => NaN
  end.

(** Nearest integer, ties towards plus infinity: floor (q + 1/2). *)
Definition round_half_up (q : Q) : Z := Qfloor (q + (1 # 2)).

Definition Math_round (x : number) : number :=
  match x with
  | Num q => Num (inject_Z (round_half_up q))
  | other => other
  end.

Definition number_add (a b : number) : number :=
  match a, b with
  | NaN, _ | _, NaN => NaN
  | Num x, Num y => Num (x + y)
  | Infinity, NegInfinity | NegInfinity, Infinity => NaN
  | Infinity, _ | _, Infinity => Infinity
  | NegInfinity, _ | _, NegInfinity => NegInfinity
  end.

Definition signed_infinity (c : comparison) : number :=
  match c with
  | Gt => Infinity
  | Lt => NegInfinity
  | Eq => NaN
  end.

Definition number_mul (a b : number) : number :=
  match a, b with
  | NaN, _ | _, NaN => NaN
  | Num x, Num y => Num (x * y)
  | Num x, Infinity | Infinity, Num x => signed_infinity (x ?= 0)%Q
  | Num x, NegInfinity | NegInfinity, Num x => signed_infinity (0 ?= x)%Q
  | Infinity, Infinity | NegInfinity, NegInfinity => Infinity
  | Infinity, NegInfinity | NegInfinity, Infinity => NegInfinity
  end.

Definition number_div (a b : number) : number :=
  match a, b with
  | NaN, _ | _, NaN => NaN
  | Num x, Num y =>
      if Qeq_bool y 0 then signed_infinity (x ?= 0)%Q else Num (x / y)
  | Num _, _ => Num 0
  | Infinity, Num y => if Qle_bool 0 y then Infinity else NegInfinity
  | NegInfinity, Num y => if Qle_bool 0 y then NegInfinity else Infinity
  | _, _ => NaN
  end.

(** [Math.min(...args)] and [Math.max(...args)] on finite arguments: the
    running extreme starts at plus, respectively minus, infinity. *)
Definition lower (lowest : number) (x : Q) : number :=
  match lowest with
  | Num l => if Qle_bool l x then Num l else Num x
  | Infinity => Num x
  | other => other
  end.

Definition higher (highest : number) (x : Q) : number :=
  match highest with
  | Num h => if Qle_bool x h then Num h else Num x
  | NegInfinity => Num x
  | other => other
  end.

Definition Math_min (args : list Q) : number := fold_left lower args Infinity.
Definition Math_max (args : list Q) : number := fold_left higher args NegInfinity.

(** ** Object literals used as lookup tables *)

(** [a || b] on strings that may be [undefined]: the empty string is falsy. *)
Definition or_else (v : option string) (fallback : string) : string :=
  match v with
  | Some s => if String.eqb s EmptyString then fallback else s
  | None => fallback
  end.

Fixpoint own_property {K V : Type} (eqb : K -> K -> bool)
  (table : list (K * V)) (key : K) : option V :=
  match table with
  | [] => None
  | (k, v) :: rest => if eqb k key then Some v else own_property eqb rest key
  end.

(** The property key of a numeric index.  [ToString] is injective on
    numbers and the keys written in the two numeric tables are the decimal
    numerals of integers, so a number selects an own property exactly when
    it is that integer; [undefined] and fractions select none.  A numeric
    key never spells a member of [Object.prototype]. *)
Definition integer_key (code : option Q) : option Z :=
  match code with
  | Some q =>
      let r := Qred q in
      if Pos.eqb (Qden r) 1 then Some (Qnum r) else None
  | None => None
  end.

Definition numeric_property {V : Type} (table : list (Z * V))
  (code : option Q) : option V :=
  match integer_key code with
  | Some z => own_property Z.eqb table z
  | None => None
  end.

Local Open Scope string_scope.

Definition weatherCodes : list (Z * string) :=
  [ (0, "Ясно"); (1, "Преимущественно ясно"); (2, "Переменная облачность");
    (3, "Пасмурно"); (45, "Туман"); (48, "Изморозь");
    (51, "Легкая морось"); (53, "Умеренная морось"); (55, "Сильная морось");
    (61, "Легкий дождь"); (63, "Умеренный дождь"); (65, "Сильный дождь");
    (71, "Легкий снег"); (73, "Умеренный снег"); (75, "Сильный снег");
    (77, "Снежная крупа");
    (80, "Легкие ливни"); (81, "Умеренные ливни"); (82, "Сильные ливни");
    (95, "Гроза"); (96, "Гроза с градом"); (99, "Сильная гроза с градом") ].

Definition getWeatherDescription (code : option Q) : string :=
  or_else (numeric_property weatherCodes code) "Неизвестно".

Definition iconMap : list (Z * string) :=
  [ (0, "01d"); (1, "02d"); (2, "03d"); (3, "04d");
    (45, "50d"); (48, "50d");
    (51, "09d"); (53, "09d"); (55, "09d");
    (61, "10d"); (63, "10d"); (65, "10d");
    (71, "13d"); (73, "13d"); (75, "13d"); (77, "13d");
    (80, "09d"); (81, "09d"); (82, "09d");
    (95, "11d"); (96, "11d"); (99, "11d") ].

Definition getWeatherIcon (code : option Q) : string :=
  or_else (numeric_property iconMap code) "01d".

Definition getWeatherIconUrl (code : option Q) : string :=
  let icon := getWeatherIcon code in
  "https://openweathermap.org/img/wn/" ++ icon ++ "@2x.png".

(** ** Static helpers *)

Definition directions : list string :=
  ["С"; "СВ"; "В"; "ЮВ"; "Ю"; "ЮЗ"; "З"; "СЗ"].

(** [%] is the truncating remainder ([Z.rem]); an array read at a negative
    index is [undefined]. *)
Definition getWindDirection (deg : Q) : option string :=
  let index := Z.rem (round_half_up (deg / 45)) 8 in
  if (index <? 0)%Z then None else nth_error directions (Z.to_nat index).

(** What a property read of an object literal may produce: an own string,
    or a member inherited from [Object.prototype] (a function, or the
    prototype object itself for [__proto__]); all of the latter are truthy. *)
Inductive value : Type :=
| VString (s : string)
| VInherited (member : string).

Definition Object_prototype : list string :=
  [ "constructor"; "__proto__"; "hasOwnProperty"; "isPrototypeOf";
    "propertyIsEnumerable"; "toLocaleString"; "toString"; "valueOf";
    "__defineGetter__"; "__defineSetter__";
    "__lookupGetter__"; "__lookupSetter__" ].

Definition alternativeIconMap : list (string * string) :=
  [ ("01d", "☀️"); ("01n", "🌙");
    ("02d", "⛅"); ("02n", "☁️");
    ("03d", "☁️"); ("03n", "☁️");
    ("04d", "☁️"); ("04n", "☁️");
    ("09d", "🌧️"); ("09n", "🌧️");
    ("10d", "🌦️"); ("10n", "🌧️");
    ("11d", "⛈️"); ("11n", "⛈️");
    ("13d", "❄️"); ("13n", "❄️");
    ("50d", "🌫️"); ("50n", "🌫️") ].

Definition getAlternativeIcon (iconCode : string) : value :=
  match own_property String.eqb alternativeIconMap iconCode with
  | Some glyph =>
      if String.eqb glyph EmptyString then VString "❓" else VString glyph
  | None =>
      if existsb (String.eqb iconCode) Object_prototype
      then VInherited iconCode
      else VString "❓"
  end.

(** ** The runtime and the collaborators *)

(** What the class uses of the JavaScript runtime, kept abstract: the
    [Date] objects ([new Date(s)], with [None] for [new Date(undefined)],
    and [toDateString], the calendar-day text in the local time zone),
    [String.prototype.toUpperCase], and the engine's message for the
    [TypeError] of reading a property of [undefined]. *)
Class Runtime : Type := {
  Date : Type;
  newDate : option string -> Date;
  toDateString : Date -> string;
  toUpperCase : string -> string;
  cannotRead : string -> string
}.

Module AxiosError.
Record t : Type := mk {
  response : option Z;
  request : bool;
  message : string
}.
End AxiosError.

Inductive exn : Type :=
| Rejected (error : AxiosError.t)
| TypeError (message : string).

Inductive Error : Type :=
| NewError (message : string).

Definition result (A : Type) : Type := (exn + A)%type.

Inductive Units : Type := metric | imperial.

(** ** Payloads *)

Module CurrentWeather.
Record t : Type := mk {
  temperature : Q;
  windspeed : Q;
  winddirection : Q;
  weathercode : Q;
  time : string
}.
End CurrentWeather.

Module Hourly.
Record t : Type := mk {
  time : list string;
  temperature_2m : list Q;
  apparent_temperature : list Q;
  relative_humidity_2m : list Q;
  pressure_msl : list Q;
  cloudcover : list Q;
  visibility : list Q;
  windspeed_10m : list Q;
  winddirection_10m : list Q;
  weathercode : list Q
}.
End Hourly.

Module Daily.
Record t : Type := mk {
  time : list string;
  temperature_2m_max : list Q;
  temperature_2m_min : list Q;
  sunrise : list string;
  sunset : list string;
  weathercode : list Q
}.
End Daily.

Module OpenMeteoResponse.
Record t : Type := mk {
  latitude : Q;
  longitude : Q;
  current_weather : option CurrentWeather.t;
  hourly : option Hourly.t;
  daily : option Daily.t
}.
End OpenMeteoResponse.

Module Address.
Record t : Type := mk {
  city : option string;
  town : option string;
  village : option string;
  state : option string;
  country : option string;
  country_code : option string
}.
End Address.

Module NominatimResponse.
Record t : Type := mk {
  lat : string;
  lon : string;
  display_name : string;
  address : option Address.t
}.
End NominatimResponse.

Module Location.
Record t : Type := mk {
  city : string;
  country : string
}.
End Location.

(** ** Normalised records *)

Module WeatherData.
Record t `{Runtime} : Type := mk {
  temp : number;
  tempMin : number;
  tempMax : number;
  feelsLike : number;
  humidity : number;
  pressure : number;
  windSpeed : Q;
  windDeg : Q;
  clouds : number;
  visibility : number;
  description : string;
  icon : string;
  iconUrl : string;
  cityName : string;
  country : string;
  sunrise : Date;
  sunset : Date;
  dt : Date
}.
End WeatherData.

(** [windSpeed] and [windDeg] are copied from the payload unconverted, so
    they are [undefined] where the array is shorter than the time axis. *)
Module HourlyWeatherData.
Record t `{Runtime} : Type := mk {
  dt : Date;
  temp : number;
  feelsLike : number;
  humidity : number;
  pressure : number;
  windSpeed : option Q;
  windDeg : option Q;
  clouds : number;
  description : string;
  icon : string;
  iconUrl : string
}.
End HourlyWeatherData.

Module DailyForecast.
Record t `{Runtime} : Type := mk {
  date : Date;
  tempMin : number;
  tempMax : number;
  tempAvg : number;
  humidity : number;
  pressure : number;
  windSpeed : number;
  description : string;
  icon : string;
  iconUrl : string;
  hourly : list HourlyWeatherData.t
}.
End DailyForecast.

Module ForecastData.
Record t `{Runtime} : Type := mk {
  city : string;
  country : string;
  forecast : list DailyForecast.t
}.
End ForecastData.

(** ** The formatters *)

Section Core.
Context `{RT : Runtime}.

(** hPa to mmHg. *)
Definition mmHg : Q := 750062 # 1000000.

Definition count (n : nat) : number := Num (inject_Z (Z.of_nat n)).

Definition formatCurrentWeather (data : OpenMeteoResponse.t)
  (location : Location.t) (currentHour : nat) : result WeatherData.t :=
  match OpenMeteoResponse.current_weather data with
  | None => inl (TypeError (cannotRead "temperature"))
  | Some current =>
  match OpenMeteoResponse.daily data with
  | None => inl (TypeError (cannotRead "temperature_2m_min"))
  | Some daily =>
  match OpenMeteoResponse.hourly data with
  | None => inl (TypeError (cannotRead "apparent_temperature"))
  | Some hourly =>
      let todayIndex := 0%nat in
      inr {|
        WeatherData.temp := Math_round (Num (CurrentWeather.temperature current));
        WeatherData.tempMin :=
          Math_round (Math_min (Daily.temperature_2m_min daily));
        WeatherData.tempMax :=
          Math_round (Math_max (Daily.temperature_2m_max daily));
        WeatherData.feelsLike :=
          Math_round
            (ToNumber (nth_error (Hourly.apparent_temperature hourly) currentHour));
        WeatherData.humidity :=
          Math_round
            (ToNumber (nth_error (Hourly.relative_humidity_2m hourly) currentHour));
        WeatherData.pressure :=
          Math_round
            (number_mul
               (ToNumber (nth_error (Hourly.pressure_msl hourly) currentHour))
               (Num mmHg));
        WeatherData.windSpeed := CurrentWeather.windspeed current;
        WeatherData.windDeg := CurrentWeather.winddirection current;
        WeatherData.clouds :=
          Math_round (ToNumber (nth_error (Hourly.cloudcover hourly) currentHour));
        WeatherData.visibility :=
          Math_round (ToNumber (nth_error (Hourly.visibility hourly) currentHour));
        WeatherData.description :=
          getWeatherDescription (Some (CurrentWeather.weathercode current));
        WeatherData.icon :=
          getWeatherIcon (Some (CurrentWeather.weathercode current));
        WeatherData.iconUrl :=
          getWeatherIconUrl (Some (CurrentWeather.weathercode current));
        WeatherData.cityName := Location.city location;
        WeatherData.country := Location.country location;
        WeatherData.sunrise := newDate (nth_error (Daily.sunrise daily) todayIndex);
        WeatherData.sunset := newDate (nth_error (Daily.sunset daily) todayIndex);
        WeatherData.dt := newDate (Some (CurrentWeather.time current))
      |}
  end end end.

(** The record pushed for hourly index [index]. *)
Definition hourlySample (hourly : Hourly.t) (hourDate : Date) (index : nat)
  : HourlyWeatherData.t :=
  {| HourlyWeatherData.dt := hourDate;
     HourlyWeatherData.temp :=
       Math_round (ToNumber (nth_error (Hourly.temperature_2m hourly) index));
     HourlyWeatherData.feelsLike :=
       Math_round (ToNumber (nth_error (Hourly.apparent_temperature hourly) index));
     HourlyWeatherData.humidity :=
       Math_round (ToNumber (nth_error (Hourly.relative_humidity_2m hourly) index));
     HourlyWeatherData.pressure :=
       Math_round
         (number_mul (ToNumber (nth_error (Hourly.pressure_msl hourly) index))
                     (Num mmHg));
     HourlyWeatherData.windSpeed := nth_error (Hourly.windspeed_10m hourly) index;
     HourlyWeatherData.windDeg := nth_error (Hourly.winddirection_10m hourly) index;
     HourlyWeatherData.clouds :=
       Math_round (ToNumber (nth_error (Hourly.cloudcover hourly) index));
     HourlyWeatherData.description :=
       getWeatherDescription (nth_error (Hourly.weathercode hourly) index);
     HourlyWeatherData.icon :=
       getWeatherIcon (nth_error (Hourly.weathercode hourly) index);
     HourlyWeatherData.iconUrl :=
       getWeatherIconUrl (nth_error (Hourly.weathercode hourly) index) |}.

Definition sameDay (hourDate date : Date) : bool :=
  String.eqb (toDateString hourDate) (toDateString date).

(** [data.hourly.time.forEach((time, index) => ...)], started at [index]
    on the remaining [times], with the array [hourlyData] pushed so far. *)
Fixpoint forEach_time (hourly : Hourly.t) (date : Date) (times : list string)
  (index : nat) (hourlyData : list HourlyWeatherData.t)
  : list HourlyWeatherData.t :=
  match times with
  | [] => hourlyData
  | time :: rest =>
      let hourDate := newDate (Some time) in
      forEach_time hourly date rest (S index)
        (if sameDay hourDate date
         then hourlyData ++ [hourlySample hourly hourDate index]
         else hourlyData)
  end.

(** [arr.reduce((sum, h) => sum + f(h), 0)]. *)
Definition reduce_sum {A : Type} (f : A -> number) (arr : list A) : number :=
  fold_left (fun sum h => number_add sum (f h)) arr (Num 0).

(** One pass of the body of the [for] loop. *)
Definition dayForecast (daily : Daily.t) (hourly : Hourly.t) (i : nat)
  : DailyForecast.t :=
  let date := newDate (nth_error (Daily.time daily) i) in
  let hourlyData := forEach_time hourly date (Hourly.time hourly) 0 [] in
  let avgHumidity :=
    number_div (reduce_sum HourlyWeatherData.humidity hourlyData)
               (count (length hourlyData)) in
  let avgPressure :=
    number_div (reduce_sum HourlyWeatherData.pressure hourlyData)
               (count (length hourlyData)) in
  let avgWindSpeed :=
    number_div
      (reduce_sum (fun h => ToNumber (HourlyWeatherData.windSpeed h)) hourlyData)
      (count (length hourlyData)) in
  let tmin := ToNumber (nth_error (Daily.temperature_2m_min daily) i) in
  let tmax := ToNumber (nth_error (Daily.temperature_2m_max daily) i) in
  {| DailyForecast.date := date;
     DailyForecast.tempMin := Math_round tmin;
     DailyForecast.tempMax := Math_round tmax;
     DailyForecast.tempAvg :=
       Math_round (number_div (number_add tmin tmax) (Num 2));
     DailyForecast.humidity := Math_round avgHumidity;
     DailyForecast.pressure := Math_round avgPressure;
     DailyForecast.windSpeed :=
       number_div (Math_round (number_mul avgWindSpeed (Num 10))) (Num 10);
     DailyForecast.description :=
       getWeatherDescription (nth_error (Daily.weathercode daily) i);
     DailyForecast.icon := getWeatherIcon (nth_error (Daily.weathercode daily) i);
     DailyForecast.iconUrl :=
       getWeatherIconUrl (nth_error (Daily.weathercode daily) i);
     DailyForecast.hourly := hourlyData |}.

(** [for (let i = ...; i < bound; i++)] with [remaining = bound - i]. *)
Fixpoint for_days (daily : Daily.t) (hourly : Hourly.t) (remaining i : nat)
  (dailyForecasts : list DailyForecast.t) : list DailyForecast.t :=
  match remaining with
  | O => dailyForecasts
  | S remaining' =>
      for_days daily hourly remaining' (S i)
        (dailyForecasts ++ [dayForecast daily hourly i])
  end.

(** [data.hourly] is first read inside the loop body, so a payload without
    an hourly axis throws only when the loop runs at least once. *)
Definition formatForecast (data : OpenMeteoResponse.t) (location : Location.t)
  : result ForecastData.t :=
  match OpenMeteoResponse.daily data with
  | None => inl (TypeError (cannotRead "time"))
  | Some daily =>
      let bound := Nat.min 5 (length (Daily.time daily)) in
      match bound, OpenMeteoResponse.hourly data with
      | O, _ =>
          inr {| ForecastData.city := Location.city location;
                 ForecastData.country := Location.country location;
                 ForecastData.forecast := [] |}
      | S _, None => inl (TypeError (cannotRead "time"))
      | S _, Some hourly =>
          inr {| ForecastData.city := Location.city location;
                 ForecastData.country := Location.country location;
                 ForecastData.forecast := for_days daily hourly bound 0 [] |}
      end
  end.

(** ** The facade *)

Definition handleError (error : exn) : Error :=
  match error with
  | Rejected e =>
      match AxiosError.response e with
      | Some 404%Z => NewError "Данные не найдены"
      | Some 429%Z => NewError "Превышен лимит запросов"
      | Some _ => NewError "Ошибка сервера"
      | None =>
          if AxiosError.request e
          then NewError "Нет соединения с сервером"
          else NewError (or_else (Some (AxiosError.message e)) "Неизвестная ошибка")
      end
  | TypeError message => NewError (or_else (Some message) "Неизвестная ошибка")
  end.

(** The two requests of the facade, as the outcome each one settles to. *)
Record Axios : Type := {
  get_forecast : Q -> Q -> string -> string -> result OpenMeteoResponse.t;
  get_reverse : Q -> Q -> result NominatimResponse.t
}.

Definition first_truthy (v : option string) (next : option string)
  : option string :=
  match v with
  | Some s => if String.eqb s EmptyString then next else Some s
  | None => next
  end.

Definition getCityNameByCoords (axios : Axios) (lat lon : Q) : Location.t :=
  match get_reverse axios lat lon with
  | inr data =>
      let address := NominatimResponse.address data in
      let field (f : Address.t -> option string) : option string :=
        match address with
        | Some a => f a
        | None => None
        end in
      {| Location.city :=
           or_else
             (first_truthy (field Address.city)
                (first_truthy (field Address.town) (field Address.village)))
             "Unknown";
         Location.country :=
           or_else (option_map toUpperCase (field Address.country_code)) "" |}
  | inl _ => {| Location.city := "Unknown"; Location.country := "" |}
  end.

Definition getWeatherAndForecast (axios : Axios) (currentHour : nat)
  (lat lon : Q) (units : Units)
  : Error + (WeatherData.t * ForecastData.t) :=
  let temperatureUnit :=
    match units with imperial => "fahrenheit" | metric => "celsius" end in
  let windspeedUnit :=
    match units with imperial => "mph" | metric => "ms" end in
  match get_forecast axios lat lon temperatureUnit windspeedUnit with
  | inl error => inl (handleError error)
  | inr data =>
      let locationInfo := getCityNameByCoords axios lat lon in
      match formatCurrentWeather data locationInfo currentHour with
      | inl error => inl (handleError error)
      | inr current =>
          match formatForecast data locationInfo with
          | inl error => inl (handleError error)
          | inr forecast => inr (current, forecast)
          end
      end
  end.

End Core.

(** ** A reference runtime

    [Date] keeps the ISO-8601 text it was built from ([None] for
    [new Date(undefined)]); the ten-character date part of [YYYY-MM-DD] and
    of [YYYY-MM-DDTHH:MM] stands for the calendar day that [toDateString]
    renders for a clock at or east of UTC. *)

Definition upper (c : ascii) : ascii :=
  let n := nat_of_ascii c in
  if andb (Nat.leb 97 n) (Nat.leb n 122) then ascii_of_nat (n - 32) else c.

Fixpoint upper_string (s : string) : string :=
  match s with
  | EmptyString => EmptyString
  | String c rest => String (upper c) (upper_string rest)
  end.

Definition isoRuntime : Runtime := {|
  Date := option string;
  newDate := fun text => text;
  toDateString := fun date =>
    match date with
    | Some text => substring 0 10 text
    | None => "Invalid Date"
    end;
  toUpperCase := upper_string;
  cannotRead := fun property =>
    "Cannot read properties of undefined (reading '" ++ property ++ "')"
|}.

(** ** Vocabulary of the statements *)

Section Vocabulary.
Context `{RT : Runtime}.

(** The hourly indices a day owns, in axis order. *)
Definition owns (hourly : Hourly.t) (date : Date) (index : nat) : bool :=
  match nth_error (Hourly.time hourly) index with
  | Some time => sameDay (newDate (Some time)) date
  | None => false
  end.

Definition ownedIndices (hourly : Hourly.t) (date : Date) : list nat :=
  filter (owns hourly date) (seq 0 (length (Hourly.time hourly))).

(** The normalised sample of hourly index [index]. *)
Definition sampleAt (hourly : Hourly.t) (index : nat) : HourlyWeatherData.t :=
  hourlySample hourly (newDate (nth_error (Hourly.time hourly) index)) index.

(** The location label the facade falls back to. *)
Definition unknownCurrent (c : WeatherData.t) : WeatherData.t :=
  {| WeatherData.temp := WeatherData.temp c;
     WeatherData.tempMin := WeatherData.tempMin c;
     WeatherData.tempMax := WeatherData.tempMax c;
     WeatherData.feelsLike := WeatherData.feelsLike c;
     WeatherData.humidity := WeatherData.humidity c;
     WeatherData.pressure := WeatherData.pressure c;
     WeatherData.windSpeed := WeatherData.windSpeed c;
     WeatherData.windDeg := WeatherData.windDeg c;
     WeatherData.clouds := WeatherData.clouds c;
     WeatherData.visibility := WeatherData.visibility c;
     WeatherData.description := WeatherData.description c;
     WeatherData.icon := WeatherData.icon c;
     WeatherData.iconUrl := WeatherData.iconUrl c;
     WeatherData.cityName := "Unknown";
     WeatherData.country := "";
     WeatherData.sunrise := WeatherData.sunrise c;
     WeatherData.sunset := WeatherData.sunset c;
     WeatherData.dt := WeatherData.dt c |}.

Definition unknownForecast (f : ForecastData.t) : ForecastData.t :=
  {| ForecastData.city := "Unknown";
     ForecastData.country := "";
     ForecastData.forecast := ForecastData.forecast f |}.

End Vocabulary.






(** The codes listed in both numeric tables. *)
Definition listed_codes : list Z :=
  [0; 1; 2; 3; 45; 48; 51; 53; 55; 61; 63; 65; 71; 73; 75; 77;
   80; 81; 82; 95; 96; 99]%Z.

(** ** Sample payloads *)

Definition snapshot : CurrentWeather.t :=
  {| CurrentWeather.temperature := 15;
     CurrentWeather.windspeed := 3;
     CurrentWeather.winddirection := 180;
     CurrentWeather.weathercode := 61;
     CurrentWeather.time := "2024-01-01T10:00" |}.

(** Two samples on 2024-01-01, with humidity 40 and 60. *)
Definition twoHours : Hourly.t :=
  {| Hourly.time := ["2024-01-01T00:00"; "2024-01-01T01:00"];
     Hourly.temperature_2m := [12; 13]%Q;
     Hourly.apparent_temperature := [10; 11]%Q;
     Hourly.relative_humidity_2m := [40; 60]%Q;
     Hourly.pressure_msl := [1013; 1015]%Q;
     Hourly.cloudcover := [20; 30]%Q;
     Hourly.visibility := [10000; 9000]%Q;
     Hourly.windspeed_10m := [3; 4]%Q;
     Hourly.winddirection_10m := [180; 190]%Q;
     Hourly.weathercode := [61; 3]%Q |}.

(** One sample on the first day and one on the sixth. *)
Definition firstAndSixthDay : Hourly.t :=
  {| Hourly.time := ["2024-01-01T00:00"; "2024-01-06T00:00"];
     Hourly.temperature_2m := [12; 13]%Q;
     Hourly.apparent_temperature := [10; 11]%Q;
     Hourly.relative_humidity_2m := [40; 60]%Q;
     Hourly.pressure_msl := [1013; 1015]%Q;
     Hourly.cloudcover := [20; 30]%Q;
     Hourly.visibility := [10000; 9000]%Q;
     Hourly.windspeed_10m := [3; 4]%Q;
     Hourly.winddirection_10m := [180; 190]%Q;
     Hourly.weathercode := [61; 3]%Q |}.

Definition oneDay : Daily.t :=
  {| Daily.time := ["2024-01-01"];
     Daily.temperature_2m_max := [20]%Q;
     Daily.temperature_2m_min := [10]%Q;
     Daily.sunrise := ["2024-01-01T08:05"];
     Daily.sunset := ["2024-01-01T16:02"];
     Daily.weathercode := [61]%Q |}.

(** Two days with minima 5, 8 and maxima 18, 22. *)
Definition twoDays : Daily.t :=
  {| Daily.time := ["2024-01-01"; "2024-01-02"];
     Daily.temperature_2m_max := [18; 22]%Q;
     Daily.temperature_2m_min := [5; 8]%Q;
     Daily.sunrise := ["2024-01-01T08:05"; "2024-01-02T08:05"];
     Daily.sunset := ["2024-01-01T16:02"; "2024-01-02T16:03"];
     Daily.weathercode := [61; 3]%Q |}.

(** Two days given as (min, max) pairs (5, 8) and (18, 22). *)
Definition twoDayPairs : Daily.t :=
  {| Daily.time := ["2024-01-01"; "2024-01-02"];
     Daily.temperature_2m_max := [8; 22]%Q;
     Daily.temperature_2m_min := [5; 18]%Q;
     Daily.sunrise := ["2024-01-01T08:05"; "2024-01-02T08:05"];
     Daily.sunset := ["2024-01-01T16:02"; "2024-01-02T16:03"];
     Daily.weathercode := [61; 3]%Q |}.

Definition sixDays : Daily.t :=
  {| Daily.time :=
       ["2024-01-01"; "2024-01-02"; "2024-01-03";
        "2024-01-04"; "2024-01-05"; "2024-01-06"];
     Daily.temperature_2m_max := [18; 22; 20; 19; 21; 17]%Q;
     Daily.temperature_2m_min := [5; 8; 7; 6; 9; 4]%Q;
     Daily.sunrise := ["2024-01-01T08:05"];
     Daily.sunset := ["2024-01-01T16:02"];
     Daily.weathercode := [61; 3; 0; 1; 2; 71]%Q |}.

Definition payload (daily : Daily.t) (hourly : Hourly.t) : OpenMeteoResponse.t :=
  {| OpenMeteoResponse.latitude := 515 # 10;
     OpenMeteoResponse.longitude := 0;
     OpenMeteoResponse.current_weather := Some snapshot;
     OpenMeteoResponse.hourly := Some hourly;
     OpenMeteoResponse.daily := Some daily |}.

Definition london : Location.t :=
  {| Location.city := "London"; Location.country := "GB" |}.

Definition londonAddress : NominatimResponse.t :=
  {| NominatimResponse.lat := "51.5";
     NominatimResponse.lon := "0";
     NominatimResponse.display_name := "London, England";
     NominatimResponse.address :=
       Some {| Address.city := Some "London";
               Address.town := None;
               Address.village := None;
               Address.state := Some "England";
               Address.country := Some "United Kingdom";
               Address.country_code := Some "gb" |} |}.

Definition networkError : AxiosError.t :=
  {| AxiosError.response := None;
     AxiosError.request := true;
     AxiosError.message := "Network Error" |}.

Definition axiosLabelled : Axios :=
  {| get_forecast := fun _ _ _ _ => inr (payload twoDays twoHours);
     get_reverse := fun _ _ => inr londonAddress |}.

Definition axiosUnlabelled : Axios :=
  {| get_forecast := fun _ _ _ _ => inr (payload twoDays twoHours);
     get_reverse := fun _ _ => inl (Rejected networkError) |}.

(** ** Lookup by city name *)

Module Coordinates.
Record t : Type := mk {
  lat : number;
  lon : number;
  name : string;
  country : string
}.
End Coordinates.

(** The three requests behind [getWeatherByCity], as the outcome each one
    settles to: the search by name, and the forecast and reverse requests
    at the coordinates the search result was parsed to (which may be any
    number, [NaN] included). *)
Record Network : Type := {
  get_search : string -> result (list NominatimResponse.t);
  forecast_at : number -> number -> string -> string -> result OpenMeteoResponse.t;
  reverse_at : number -> number -> result NominatimResponse.t
}.

(** The requests of [getWeatherAndForecast(lat, lon, units)]: the
    coordinates reach nothing but the two requests. *)
Definition axiosAt (net : Network) (lat lon : number) : Axios :=
  {| get_forecast := fun _ _ => forecast_at net lat lon;
     get_reverse := fun _ _ => reverse_at net lat lon |}.

(** [handleError] on an [Error] object, which carries a message and
    neither [response] nor [request]. *)
Definition handleError_again (error : Error) : Error :=
  match error with
  | NewError message => NewError (or_else (Some message) "Неизвестная ошибка")
  end.

Definition message_of (error : Error) : string :=
  match error with
  | NewError message => message
  end.

Section CityLookup.
Context `{RT : Runtime}.
Variable parseFloat : string -> number.

Definition getCoordinatesByCity (net : Network) (cityName : string)
  : Error + option Coordinates.t :=
  match get_search net cityName with
  | inl error => inl (handleError error)
  | inr [] => inr None
  | inr (data :: _) =>
      let field (f : Address.t -> option string) : option string :=
        match NominatimResponse.address data with
        | Some a => f a
        | None => None
        end in
      inr (Some
        {| Coordinates.lat := parseFloat (NominatimResponse.lat data);
           Coordinates.lon := parseFloat (NominatimResponse.lon data);
           Coordinates.name :=
             or_else
               (first_truthy (field Address.city)
                  (first_truthy (field Address.town) (field Address.village)))
               cityName;
           Coordinates.country :=
             or_else (option_map toUpperCase (field Address.country_code)) "" |})
  end.

Definition getWeatherByCity (net : Network) (currentHour : nat)
  (cityName : string) (units : Units)
  : Error + (WeatherData.t * ForecastData.t) :=
  match getCoordinatesByCity net cityName with
  | inl error => inl (handleError_again error)
  | inr None => inl (handleError_again (NewError "Город не найден"))
  | inr (Some coords) =>
      match
        getWeatherAndForecast
          (axiosAt net (Coordinates.lat coords) (Coordinates.lon coords))
          currentHour 0 0 units
      with
      | inl error => inl (handleError_again error)
      | inr weatherData => inr weatherData
      end
  end.

End CityLookup.

(** ** The display component *)

(** The refs of [WeatherDisplay.vue]'s [setup]. *)
Module Display.
Record t `{Runtime} : Type := mk {
  currentWeather : option WeatherData.t;
  forecast : option ForecastData.t;
  loading : bool;
  error : option string;
  searchCity : string;
  showForecast : bool;
  selectedDay : option DailyForecast.t
}.
End Display.

Section Component.
Context `{RT : Runtime}.
Variable parseFloat : string -> number.
Variable trim : string -> string.

(** The refs once the promise of [searchWeather] has settled; [todayStr]
    is [new Date().toDateString()] read after the data arrived. *)
Definition searchWeather (net : Network) (currentHour : nat) (units : Units)
  (todayStr : string) (refs : Display.t) : Display.t :=
  if String.eqb (trim (Display.searchCity refs)) EmptyString
  then
    {| Display.currentWeather := Display.currentWeather refs;
       Display.forecast := Display.forecast refs;
       Display.loading := Display.loading refs;
       Display.error := Some "Введите название города";
       Display.searchCity := Display.searchCity refs;
       Display.showForecast := Display.showForecast refs;
       Display.selectedDay := Display.selectedDay refs |}
  else
    match
      getWeatherByCity parseFloat net currentHour (Display.searchCity refs) units
    with
    | inr (current, forecast) =>
        {| Display.currentWeather := Some current;
           Display.forecast := Some forecast;
           Display.loading := false;
           Display.error := None;
           Display.searchCity := Display.searchCity refs;
           Display.showForecast := Display.showForecast refs;
           Display.selectedDay :=
             find (fun d => String.eqb (toDateString (DailyForecast.date d)) todayStr)
               (ForecastData.forecast forecast) |}
    | inl err =>
        {| Display.currentWeather := None;
           Display.forecast := None;
           Display.loading := false;
           Display.error :=
             Some (or_else (Some (message_of err))
                     "Произошла ошибка при загрузке погоды");
           Display.searchCity := Display.searchCity refs;
           Display.showForecast := Display.showForecast refs;
           Display.selectedDay := None |}
    end.

(** [getWindDirection(currentWeather.windDeg)] of the template. *)
Definition shownWindDirection (w : WeatherData.t) : option string :=
  getWindDirection (WeatherData.windDeg w).

End Component.

(** ** More sample data *)

(** [parseFloat] on the two coordinate texts of the samples. *)
Definition parseSample (text : string) : number :=
  if String.eqb text "51.5" then Num (515 # 10)
  else if String.eqb text "0" then Num 0
  else NaN.

Definition networkFound : Network :=
  {| get_search := fun _ => inr [londonAddress];
     forecast_at := fun _ _ _ _ => inr (payload twoDays twoHours);
     reverse_at := fun _ _ => inr londonAddress |}.

Definition networkEmpty : Network :=
  {| get_search := fun _ => inr [];
     forecast_at := fun _ _ _ _ => inr (payload twoDays twoHours);
     reverse_at := fun _ _ => inr londonAddress |}.

Definition tooManyRequests : AxiosError.t :=
  {| AxiosError.response := Some 429%Z;
     AxiosError.request := true;
     AxiosError.message := "Request failed with status code 429" |}.

Definition networkLimited : Network :=
  {| get_search := fun _ => inl (Rejected tooManyRequests);
     forecast_at := fun _ _ _ _ => inr (payload twoDays twoHours);
     reverse_at := fun _ _ => inr londonAddress |}.

(** Leading and trailing spaces removed. *)
Fixpoint trim_left (s : string) : string :=
  match s with
  | String " "%char rest => trim_left rest
  | other => other
  end.

Fixpoint reverse_string (s acc : string) : string :=
  match s with
  | EmptyString => acc
  | String c rest => reverse_string rest (String c acc)
  end.

Definition trim_spaces (s : string) : string :=
  reverse_string (trim_left (reverse_string (trim_left s) "")) "".

Definition emptyDaily : Daily.t :=
  {| Daily.time := [];
     Daily.temperature_2m_max := [];
     Daily.temperature_2m_min := [];
     Daily.sunrise := [];
     Daily.sunset := [];
     Daily.weathercode := [] |}.

Definition withoutHourly (daily : Daily.t) : OpenMeteoResponse.t :=
  {| OpenMeteoResponse.latitude := 515 # 10;
     OpenMeteoResponse.longitude := 0;
     OpenMeteoResponse.current_weather := Some snapshot;
     OpenMeteoResponse.hourly := None;
     OpenMeteoResponse.daily := Some daily |}.

Definition villageAddress : NominatimResponse.t :=
  {| NominatimResponse.lat := "51.5";
     NominatimResponse.lon := "0";
     NominatimResponse.display_name := "Grantchester";
     NominatimResponse.address :=
       Some {| Address.city := Some "";
               Address.town := None;
               Address.village := Some "Grantchester";
               Address.state := None;
               Address.country := None;
               Address.country_code := None |} |}.

Definition axiosOffline : Axios :=
  {| get_forecast := fun _ _ _ _ => inl (Rejected networkError);
     get_reverse := fun _ _ => inr londonAddress |}.

(** The refs before the first search, with London typed in. *)
Definition freshRefs : @Display.t isoRuntime :=
  @Display.mk isoRuntime None None false None "London" true None.

(** A number that is a finite integer, as [Math.round] returns on finite
    input. *)
Definition whole (x : number) : Prop := exists z : Z, x = Num (inject_Z z).

(** ** Numbers *)

Lemma fold_lower_spec (args : list Q) :
  forall l : Q,
  exists m : Q,
    fold_left lower args (Num l) = Num m /\
    In m (l :: args) /\
    (forall x, In x (l :: args) -> (m <= x)%Q).
Proof.
  induction args as [|a rest IH]; intros l.
  - exists l. simpl. repeat split; auto.
    intros x [<-|[]]. apply Qle_refl.
  - cbn [fold_left lower].
    destruct (Qle_bool l a) eqn:Hla.
    + apply Qle_bool_iff in Hla.
      destruct (IH l) as (m & Hm & Hin & Hle).
      exists m. split; [exact Hm|]. split.
      * destruct Hin as [<-|Hin]; [now left | right; now right].
      * intros x [<-|[<-|Hx]].
        -- apply Hle. now left.
        -- apply Qle_trans with l; [apply Hle; now left | exact Hla].
        -- apply Hle. now right.
    + assert (Hal : (a < l)%Q).
      { apply Qnot_le_lt. intros H. apply Qle_bool_iff in H. congruence. }
      destruct (IH a) as (m & Hm & Hin & Hle).
      exists m. split; [exact Hm|]. split.
      * now right.
      * intros x [<-|Hx].
        -- apply Qle_trans with a; [apply Hle; now left | now apply Qlt_le_weak].
        -- apply Hle. exact Hx.
Qed.

Lemma fold_higher_spec (args : list Q) :
  forall h : Q,
  exists m : Q,
    fold_left higher args (Num h) = Num m /\
    In m (h :: args) /\
    (forall x, In x (h :: args) -> (x <= m)%Q).
Proof.
  induction args as [|a rest IH]; intros h.
  - exists h. simpl. repeat split; auto.
    intros x [<-|[]]. apply Qle_refl.
  - cbn [fold_left higher].
    destruct (Qle_bool a h) eqn:Hah.
    + apply Qle_bool_iff in Hah.
      destruct (IH h) as (m & Hm & Hin & Hle).
      exists m. split; [exact Hm|]. split.
      * destruct Hin as [<-|Hin]; [now left | right; now right].
      * intros x [<-|[<-|Hx]].
        -- apply Hle. now left.
        -- apply Qle_trans with h; [exact Hah | apply Hle; now left].
        -- apply Hle. now right.
    + assert (Hha : (h < a)%Q).
      { apply Qnot_le_lt. intros H. apply Qle_bool_iff in H. congruence. }
      destruct (IH a) as (m & Hm & Hin & Hle).
      exists m. split; [exact Hm|]. split.
      * now right.
      * intros x [<-|Hx].
        -- apply Qle_trans with a; [now apply Qlt_le_weak | apply Hle; now left].
        -- apply Hle. exact Hx.
Qed.

Lemma Math_min_least (args : list Q) :
  args <> [] ->
  exists m : Q,
    Math_min args = Num m /\ In m args /\ (forall x, In x args -> (m <= x)%Q).
Proof.
  destruct args as [|a rest]; [congruence | intros _].
  unfold Math_min. cbn [fold_left lower]. apply fold_lower_spec.
Qed.

Lemma Math_max_greatest (args : list Q) :
  args <> [] ->
  exists m : Q,
    Math_max args = Num m /\ In m args /\ (forall x, In x args -> (x <= m)%Q).
Proof.
  destruct args as [|a rest]; [congruence | intros _].
  unfold Math_max. cbn [fold_left higher]. apply fold_higher_spec.
Qed.








Lemma count_positive (n : nat) :
  n <> 0%nat -> Qeq_bool (inject_Z (Z.of_nat n)) 0 = false.
Proof.
  intros Hn. destruct (Qeq_bool (inject_Z (Z.of_nat n)) 0) eqn:E; [|reflexivity].
  apply Qeq_bool_eq in E. unfold Qeq in E. simpl in E. lia.
Qed.


(** ** The loops of [formatForecast] *)

Section Loops.
Context `{RT : Runtime}.

Lemma forEach_time_from (hourly : Hourly.t) (date : Date) :
  forall (times before : list string) (hourlyData : list HourlyWeatherData.t),
    Hourly.time hourly = (before ++ times)%list ->
    forEach_time hourly date times (length before) hourlyData =
    (hourlyData ++
     map (sampleAt hourly)
       (filter (owns hourly date) (seq (length before) (length times))))%list.
Proof.
  induction times as [|time rest IH]; intros before hourlyData Hsplit.
  - simpl. now rewrite app_nil_r.
  - assert (Hat : nth_error (Hourly.time hourly) (length before) = Some time).
    { rewrite Hsplit, nth_error_app2, Nat.sub_diag by lia. reflexivity. }
    assert (Hnext : Hourly.time hourly = ((before ++ [time]) ++ rest)%list).
    { now rewrite <- app_assoc. }
    specialize (IH (before ++ [time])%list).
    rewrite length_app, Nat.add_1_r in IH.
    cbn [forEach_time length seq filter].
    rewrite (IH _ Hnext).
    unfold owns at 2. rewrite Hat.
    destruct (sameDay (newDate (Some time)) date).
    + rewrite <- app_assoc. cbn [map app]. unfold sampleAt at 2.
      now rewrite Hat.
    + reflexivity.
Qed.

Lemma forEach_time_owned (hourly : Hourly.t) (date : Date) :
  forEach_time hourly date (Hourly.time hourly) 0 [] =
  map (sampleAt hourly) (ownedIndices hourly date).
Proof.
  exact (forEach_time_from hourly date (Hourly.time hourly) [] [] eq_refl).
Qed.

Lemma for_days_from (daily : Daily.t) (hourly : Hourly.t) :
  forall (remaining i : nat) (dailyForecasts : list DailyForecast.t),
    for_days daily hourly remaining i dailyForecasts =
    (dailyForecasts ++ map (dayForecast daily hourly) (seq i remaining))%list.
Proof.
  induction remaining as [|n IH]; intros i acc; simpl.
  - now rewrite app_nil_r.
  - rewrite IH, <- app_assoc. reflexivity.
Qed.

Lemma formatForecast_complete (data : OpenMeteoResponse.t)
  (location : Location.t) (daily : Daily.t) (hourly : Hourly.t) :
  OpenMeteoResponse.daily data = Some daily ->
  OpenMeteoResponse.hourly data = Some hourly ->
  formatForecast data location =
  inr {| ForecastData.city := Location.city location;
         ForecastData.country := Location.country location;
         ForecastData.forecast :=
           map (dayForecast daily hourly)
             (seq 0 (Nat.min 5 (length (Daily.time daily)))) |}.
Proof.
  intros Hd Hh. unfold formatForecast. rewrite Hd, Hh.
  destruct (Nat.min 5 (length (Daily.time daily))) as [|n] eqn:Hb.
  - reflexivity.
  - now rewrite for_days_from.
Qed.

(** Whatever the payload, a forecast that is returned lists day forecasts
    computed by the loop body, each from some daily and hourly axis. *)
Lemma formatForecast_days (data : OpenMeteoResponse.t) (location : Location.t)
  (f : ForecastData.t) (day : DailyForecast.t) :
  formatForecast data location = inr f ->
  In day (ForecastData.forecast f) ->
  exists daily hourly i,
    OpenMeteoResponse.hourly data = Some hourly /\
    day = dayForecast daily hourly i.
Proof.
  unfold formatForecast.
  destruct (OpenMeteoResponse.daily data) as [daily|]; [|discriminate].
  destruct (Nat.min 5 (length (Daily.time daily))) as [|n].
  - intros [= <-] [].
  - destruct (OpenMeteoResponse.hourly data) as [hourly|]; [|discriminate].
    intros [= <-]. unfold ForecastData.forecast.
    rewrite for_days_from. intros Hin.
    change (In day (map (dayForecast daily hourly) (seq 0 (S n)))) in Hin.
    apply in_map_iff in Hin as (i & <- & _).
    now exists daily, hourly, i.
Qed.

Lemma forecast_nth (daily : Daily.t) (hourly : Hourly.t) (bound k : nat)
  (day : DailyForecast.t) :
  nth_error (map (dayForecast daily hourly) (seq 0 bound)) k = Some day ->
  (k < bound)%nat /\ day = dayForecast daily hourly k.
Proof.
  intros Hk.
  assert (Hlt : (k < bound)%nat).
  { assert (H := nth_error_Some (map (dayForecast daily hourly) (seq 0 bound)) k).
    rewrite length_map, length_seq in H. apply H. congruence. }
  split; [exact Hlt|].
  rewrite nth_error_map, nth_error_seq in Hk.
  assert (Hb : (k <? bound)%nat = true) by now apply Nat.ltb_lt.
  rewrite Hb in Hk. simpl in Hk. congruence.
Qed.

Lemma dayForecast_hourly (daily : Daily.t) (hourly : Hourly.t) (i : nat) :
  DailyForecast.hourly (dayForecast daily hourly i) =
  map (sampleAt hourly)
    (ownedIndices hourly (DailyForecast.date (dayForecast daily hourly i))).
Proof.
  cbn [dayForecast DailyForecast.hourly DailyForecast.date].
  apply forEach_time_owned.
Qed.

Lemma owns_iff (hourly : Hourly.t) (date : Date) (index : nat) :
  In index (ownedIndices hourly date) <->
  exists time,
    nth_error (Hourly.time hourly) index = Some time /\
    toDateString (newDate (Some time)) = toDateString date.
Proof.
  unfold ownedIndices. rewrite filter_In, in_seq. unfold owns, sameDay.
  split.
  - intros [_ Hown].
    destruct (nth_error (Hourly.time hourly) index) as [time|]; [|discriminate].
    exists time. split; [reflexivity | now apply String.eqb_eq].
  - intros (time & Hat & Hday). rewrite Hat. split.
    + split; [lia|]. simpl. apply nth_error_Some. congruence.
    + now apply String.eqb_eq.
Qed.

Lemma ownedIndices_NoDup (hourly : Hourly.t) (date : Date) :
  NoDup (ownedIndices hourly date).
Proof.
  apply NoDup_filter, seq_NoDup.
Qed.

End Loops.


(** ** The forecast aggregator *)

Section Aggregator.
Context `{RT : Runtime}.


(** C2, as amended.  In a returned forecast each day's hourly sequence is
    made of the samples of its owned hourly indices; an index is owned by a
    day exactly when it lies on the hourly axis and its calendar date equals
    the day's; it is owned once; and two returned days of different
    calendar dates own no index in common.  Nothing is said of an index
    whose date is the date of no returned day: it is in no bucket. *)
Theorem buckets_by_calendar_date (data : OpenMeteoResponse.t)
  (location : Location.t) (hourly : Hourly.t) (f : ForecastData.t) :
  OpenMeteoResponse.hourly data = Some hourly ->
  formatForecast data location = inr f ->
  (forall day : DailyForecast.t,
     In day (ForecastData.forecast f) ->
     DailyForecast.hourly day =
       map (sampleAt hourly) (ownedIndices hourly (DailyForecast.date day)) /\
     NoDup (ownedIndices hourly (DailyForecast.date day)) /\
     forall index : nat,
       In index (ownedIndices hourly (DailyForecast.date day)) <->
       exists time,
         nth_error (Hourly.time hourly) index = Some time /\
         toDateString (newDate (Some time)) =
         toDateString (DailyForecast.date day)) /\
  (forall (day1 day2 : DailyForecast.t) (index : nat),
     In day1 (ForecastData.forecast f) ->
     In day2 (ForecastData.forecast f) ->
     toDateString (DailyForecast.date day1) <>
     toDateString (DailyForecast.date day2) ->
     In index (ownedIndices hourly (DailyForecast.date day1)) ->
     ~ In index (ownedIndices hourly (DailyForecast.date day2))).
Proof.
  intros Hh Hf. split.
  - intros day Hday.
    destruct (formatForecast_days _ _ _ _ Hf Hday) as (daily & hourly' & i & Hh' & ->).
    assert (hourly' = hourly) as -> by congruence.
    split; [apply dayForecast_hourly|].
    split; [apply ownedIndices_NoDup | intros index; apply owns_iff].
  - intros day1 day2 index _ _ Hdiff H1 H2.
    apply owns_iff in H1 as (time1 & Hat1 & Hday1).
    apply owns_iff in H2 as (time2 & Hat2 & Hday2).
    assert (time1 = time2) as -> by congruence.
    congruence.
Qed.



End Aggregator.

(** ** Current conditions *)

Section Builder.
Context `{RT : Runtime}.

Lemma formatCurrentWeather_complete (data : OpenMeteoResponse.t)
  (location : Location.t) (currentHour : nat) (current : CurrentWeather.t)
  (daily : Daily.t) (hourly : Hourly.t) :
  OpenMeteoResponse.current_weather data = Some current ->
  OpenMeteoResponse.daily data = Some daily ->
  OpenMeteoResponse.hourly data = Some hourly ->
  exists w : WeatherData.t,
    formatCurrentWeather data location currentHour = inr w /\
    WeatherData.tempMin w =
      Math_round (Math_min (Daily.temperature_2m_min daily)) /\
    WeatherData.tempMax w =
      Math_round (Math_max (Daily.temperature_2m_max daily)) /\
    WeatherData.feelsLike w =
      Math_round
        (ToNumber (nth_error (Hourly.apparent_temperature hourly) currentHour)) /\
    WeatherData.humidity w =
      Math_round
        (ToNumber (nth_error (Hourly.relative_humidity_2m hourly) currentHour)) /\
    WeatherData.pressure w =
      Math_round
        (number_mul
           (ToNumber (nth_error (Hourly.pressure_msl hourly) currentHour))
           (Num mmHg)) /\
    WeatherData.clouds w =
      Math_round (ToNumber (nth_error (Hourly.cloudcover hourly) currentHour)) /\
    WeatherData.visibility w =
      Math_round (ToNumber (nth_error (Hourly.visibility hourly) currentHour)).
Proof.
  intros Hc Hd Hh. unfold formatCurrentWeather. rewrite Hc, Hd, Hh.
  eexists. split; [reflexivity|]. cbn. repeat split.
Qed.

Lemma out_of_range {A : Type} (arr : list A) (index : nat) :
  (length arr <= index)%nat -> nth_error arr index = None.
Proof.
  apply nth_error_None.
Qed.

(** C3.  With the snapshot and both axes present and non-empty daily
    minimum and maximum arrays, [tempMin] is the rounded least element of
    the whole minimum array and [tempMax] the rounded greatest element of
    the whole maximum array.  With minima 5, 8 and maxima 18, 22, and also
    with the two days given as the pairs (5, 8) and (18, 22), this is 5 and
    22. *)
Theorem current_extremes_span_all_days (data : OpenMeteoResponse.t)
  (location : Location.t) (currentHour : nat) (current : CurrentWeather.t)
  (daily : Daily.t) (hourly : Hourly.t) :
  OpenMeteoResponse.current_weather data = Some current ->
  OpenMeteoResponse.daily data = Some daily ->
  OpenMeteoResponse.hourly data = Some hourly ->
  Daily.temperature_2m_min daily <> [] ->
  Daily.temperature_2m_max daily <> [] ->
  exists w : WeatherData.t,
    formatCurrentWeather data location currentHour = inr w /\
    (exists lo : Q,
       In lo (Daily.temperature_2m_min daily) /\
       (forall x, In x (Daily.temperature_2m_min daily) -> (lo <= x)%Q) /\
       WeatherData.tempMin w = Num (inject_Z (round_half_up lo))) /\
    (exists hi : Q,
       In hi (Daily.temperature_2m_max daily) /\
       (forall x, In x (Daily.temperature_2m_max daily) -> (x <= hi)%Q) /\
       WeatherData.tempMax w = Num (inject_Z (round_half_up hi))) /\
    (Daily.temperature_2m_min daily = [5; 8]%Q ->
     Daily.temperature_2m_max daily = [18; 22]%Q ->
     WeatherData.tempMin w = Num 5 /\ WeatherData.tempMax w = Num 22) /\
    (Daily.temperature_2m_min daily = [5; 18]%Q ->
     Daily.temperature_2m_max daily = [8; 22]%Q ->
     WeatherData.tempMin w = Num 5 /\ WeatherData.tempMax w = Num 22).
Proof.
  intros Hc Hd Hh Hmin Hmax.
  destruct (formatCurrentWeather_complete data location currentHour _ _ _ Hc Hd Hh)
    as (w & Hw & Htmin & Htmax & _).
  exists w. split; [exact Hw|].
  destruct (Math_min_least _ Hmin) as (lo & Hlo & Hlo_in & Hlo_le).
  destruct (Math_max_greatest _ Hmax) as (hi & Hhi & Hhi_in & Hhi_le).
  split; [|split; [|split]].
  - exists lo. repeat split; try assumption. now rewrite Htmin, Hlo.
  - exists hi. repeat split; try assumption. now rewrite Htmax, Hhi.
  - intros E1 E2. rewrite Htmin, Htmax, E1, E2. split; reflexivity.
  - intros E1 E2. rewrite Htmin, Htmax, E1, E2. split; reflexivity.
Qed.

(** C5, as amended.  With the snapshot and both axes present, building the
    current conditions returns a record for every hour index; a field read
    from an hourly array that has no entry at the current hour ([feelsLike],
    [humidity], [pressure], [clouds], [visibility]) is [NaN] in it. *)
Theorem current_hour_beyond_axis (data : OpenMeteoResponse.t)
  (location : Location.t) (currentHour : nat) (current : CurrentWeather.t)
  (daily : Daily.t) (hourly : Hourly.t) :
  OpenMeteoResponse.current_weather data = Some current ->
  OpenMeteoResponse.daily data = Some daily ->
  OpenMeteoResponse.hourly data = Some hourly ->
  exists w : WeatherData.t,
    formatCurrentWeather data location currentHour = inr w /\
    ((length (Hourly.apparent_temperature hourly) <= currentHour)%nat ->
     WeatherData.feelsLike w = NaN) /\
    ((length (Hourly.relative_humidity_2m hourly) <= currentHour)%nat ->
     WeatherData.humidity w = NaN) /\
    ((length (Hourly.pressure_msl hourly) <= currentHour)%nat ->
     WeatherData.pressure w = NaN) /\
    ((length (Hourly.cloudcover hourly) <= currentHour)%nat ->
     WeatherData.clouds w = NaN) /\
    ((length (Hourly.visibility hourly) <= currentHour)%nat ->
     WeatherData.visibility w = NaN).
Proof.
  intros Hc Hd Hh.
  destruct (formatCurrentWeather_complete data location currentHour _ _ _ Hc Hd Hh)
    as (w & Hw & _ & _ & Hfeels & Hhum & Hpre & Hclouds & Hvis).
  exists w. split; [exact Hw|].
  repeat split; intros Hlen; apply out_of_range in Hlen.
  - now rewrite Hfeels, Hlen.
  - now rewrite Hhum, Hlen.
  - now rewrite Hpre, Hlen.
  - now rewrite Hclouds, Hlen.
  - now rewrite Hvis, Hlen.
Qed.

(** C10.  In the current conditions, in every day forecast and in every
    hourly sample that the formatters return, [icon] is what
    [getWeatherIcon] gives for some weather code and [iconUrl] is the
    OpenWeatherMap prefix, that record's [icon], and [@2x.png]. *)
Theorem iconUrl_follows_icon (data : OpenMeteoResponse.t)
  (location : Location.t) (currentHour : nat) :
  (forall w : WeatherData.t,
     formatCurrentWeather data location currentHour = inr w ->
     (exists code, WeatherData.icon w = getWeatherIcon code) /\
     WeatherData.iconUrl w =
       "https://openweathermap.org/img/wn/" ++ WeatherData.icon w ++ "@2x.png") /\
  (forall f : ForecastData.t,
     formatForecast data location = inr f ->
     forall day : DailyForecast.t,
       In day (ForecastData.forecast f) ->
       (exists code, DailyForecast.icon day = getWeatherIcon code) /\
       DailyForecast.iconUrl day =
         "https://openweathermap.org/img/wn/" ++ DailyForecast.icon day
           ++ "@2x.png" /\
       forall h : HourlyWeatherData.t,
         In h (DailyForecast.hourly day) ->
         (exists code, HourlyWeatherData.icon h = getWeatherIcon code) /\
         HourlyWeatherData.iconUrl h =
           "https://openweathermap.org/img/wn/" ++ HourlyWeatherData.icon h
             ++ "@2x.png").
Proof.
  split.
  - intros w. unfold formatCurrentWeather.
    destruct (OpenMeteoResponse.current_weather data); [|discriminate].
    destruct (OpenMeteoResponse.daily data); [|discriminate].
    destruct (OpenMeteoResponse.hourly data); [|discriminate].
    intros [= <-]. split; [eexists|]; reflexivity.
  - intros f Hf day Hday.
    destruct (formatForecast_days _ _ _ _ Hf Hday) as (daily & hourly & i & _ & ->).
    split; [eexists; reflexivity|]. split; [reflexivity|].
    intros h. rewrite dayForecast_hourly. intros Hh.
    apply in_map_iff in Hh as (index & <- & _).
    split; [eexists|]; reflexivity.
Qed.

End Builder.

(** ** The facade *)

Section Facade.
Context `{RT : Runtime}.

(** The location label does not decide whether a formatter throws, and it
    only fills the label fields of what is returned. *)
Lemma formatCurrentWeather_label (data : OpenMeteoResponse.t)
  (location : Location.t) (currentHour : nat) (w : WeatherData.t) :
  formatCurrentWeather data location currentHour = inr w ->
  WeatherData.cityName w = Location.city location /\
  WeatherData.country w = Location.country location /\
  formatCurrentWeather data
    {| Location.city := "Unknown"; Location.country := "" |} currentHour =
  inr (unknownCurrent w).
Proof.
  unfold formatCurrentWeather.
  destruct (OpenMeteoResponse.current_weather data); [|discriminate].
  destruct (OpenMeteoResponse.daily data); [|discriminate].
  destruct (OpenMeteoResponse.hourly data); [|discriminate].
  intros [= <-]. repeat split.
Qed.

Lemma formatForecast_label (data : OpenMeteoResponse.t)
  (location : Location.t) (f : ForecastData.t) :
  formatForecast data location = inr f ->
  ForecastData.city f = Location.city location /\
  ForecastData.country f = Location.country location /\
  formatForecast data {| Location.city := "Unknown"; Location.country := "" |} =
  inr (unknownForecast f).
Proof.
  unfold formatForecast.
  destruct (OpenMeteoResponse.daily data) as [daily|]; [|discriminate].
  destruct (Nat.min 5 (length (Daily.time daily))).
  - intros [= <-]. repeat split.
  - destruct (OpenMeteoResponse.hourly data); [|discriminate].
    intros [= <-]. repeat split.
Qed.

(** C8.  Take a request whose reverse lookup fails and the same request
    with a reverse lookup that succeeds.  Whenever the facade returns a
    result with the successful lookup, it returns one with the failed
    lookup too, and that result is the same current conditions and the same
    forecast with the label replaced by city [Unknown] and an empty
    country. *)
Theorem reverse_lookup_failure_keeps_weather
  (forecastRequest : Q -> Q -> string -> string -> result OpenMeteoResponse.t)
  (reverseFound reverseFailed : Q -> Q -> result NominatimResponse.t)
  (currentHour : nat) (lat lon : Q) (units : Units)
  (error : exn) (found : NominatimResponse.t)
  (current : WeatherData.t) (forecast : ForecastData.t) :
  reverseFailed lat lon = inl error ->
  reverseFound lat lon = inr found ->
  getWeatherAndForecast
    {| get_forecast := forecastRequest; get_reverse := reverseFound |}
    currentHour lat lon units = inr (current, forecast) ->
  getWeatherAndForecast
    {| get_forecast := forecastRequest; get_reverse := reverseFailed |}
    currentHour lat lon units =
  inr (unknownCurrent current, unknownForecast forecast).
Proof.
  intros Hfailed Hfound. unfold getWeatherAndForecast, getCityNameByCoords.
  cbn [get_forecast get_reverse]. rewrite Hfailed, Hfound.
  destruct (forecastRequest lat lon _ _) as [e|data]; [discriminate|].
  match goal with
  | |- context [formatCurrentWeather data ?l currentHour] => set (location := l)
  end.
  destruct (formatCurrentWeather data location currentHour) as [e|w] eqn:Hw;
    [discriminate|].
  destruct (formatForecast data location) as [e|f] eqn:Hf; [discriminate|].
  intros [= <- <-].
  apply formatCurrentWeather_label in Hw as (_ & _ & ->).
  apply formatForecast_label in Hf as (_ & _ & ->).
  reflexivity.
Qed.

(** C9.  Whenever the facade returns, the current conditions and the
    forecast carry the same label: [cityName] equals [city] and the two
    [country] fields are equal. *)
Theorem current_and_forecast_share_label (axios : Axios) (currentHour : nat)
  (lat lon : Q) (units : Units)
  (current : WeatherData.t) (forecast : ForecastData.t) :
  getWeatherAndForecast axios currentHour lat lon units = inr (current, forecast) ->
  WeatherData.cityName current = ForecastData.city forecast /\
  WeatherData.country current = ForecastData.country forecast.
Proof.
  unfold getWeatherAndForecast.
  destruct (get_forecast axios lat lon _ _) as [e|data]; [discriminate|].
  destruct (formatCurrentWeather data _ currentHour) as [e|w] eqn:Hw;
    [discriminate|].
  destruct (formatForecast data _) as [e|f] eqn:Hf; [discriminate|].
  intros [= <- <-].
  apply formatCurrentWeather_label in Hw as (-> & -> & _).
  apply formatForecast_label in Hf as (-> & -> & _).
  split; reflexivity.
Qed.

End Facade.

(** ** Classifier and static helpers *)

Lemma integer_key_of_integer (z : Z) : integer_key (Some (inject_Z z)) = Some z.
Proof.
  unfold integer_key, inject_Z, Qred. cbn [Qnum Qden].
  assert (Hg : Z.ggcd z 1 = (1%Z, (z, 1%Z))).
  { pose proof (Z.ggcd_gcd z 1) as Hgcd.
    pose proof (Z.ggcd_correct_divisors z 1) as Hdiv.
    destruct (Z.ggcd z 1) as (g & a & b). cbn in Hgcd, Hdiv.
    rewrite Z.gcd_1_r in Hgcd. subst g. destruct Hdiv as [Ha Hb].
    f_equal. f_equal; lia. }
  rewrite Hg. reflexivity.
Qed.

Lemma own_property_unlisted {V : Type} (table : list (Z * V)) (z : Z) :
  ~ In z (map fst table) -> own_property Z.eqb table z = None.
Proof.
  induction table as [|[k v] rest IH]; intros Hz; [reflexivity|].
  cbn [own_property]. destruct (Z.eqb_spec k z) as [->|_].
  - exfalso. apply Hz. now left.
  - apply IH. intros Hin. apply Hz. now right.
Qed.

Lemma own_property_listed {K V : Type} (eqb : K -> K -> bool)
  (table : list (K * V)) (key : K) (v : V) :
  (forall a b, eqb a b = true -> a = b) ->
  own_property eqb table key = Some v -> In (key, v) table.
Proof.
  intros Heqb. induction table as [|[k w] rest IH]; [discriminate|].
  cbn [own_property]. destruct (eqb k key) eqn:E.
  - intros [= <-]. apply Heqb in E as <-. now left.
  - intros H. right. now apply IH.
Qed.

Lemma own_property_absent {K V : Type} (eqb : K -> K -> bool)
  (table : list (K * V)) (key : K) :
  (forall a, eqb a a = true) ->
  own_property eqb table key = None -> ~ In key (map fst table).
Proof.
  intros Hrefl. induction table as [|[k w] rest IH]; [intros _ []|].
  cbn [own_property map fst]. destruct (eqb k key) eqn:E; [discriminate|].
  intros Hnone [->|Hin].
  - rewrite Hrefl in E. discriminate.
  - now apply IH.
Qed.

(** The two numeric classifiers are total: an integer outside the table
    gets the fallback. *)
Lemma classifier_fallback (z : Z) :
  ~ In z listed_codes ->
  getWeatherDescription (Some (inject_Z z)) = "Неизвестно" /\
  getWeatherIcon (Some (inject_Z z)) = "01d".
Proof.
  intros Hz. unfold getWeatherDescription, getWeatherIcon, numeric_property.
  rewrite integer_key_of_integer, !own_property_unlisted by exact Hz.
  split; reflexivity.
Qed.

Lemma classifier_listed (z : Z) :
  In z listed_codes ->
  In (z, getWeatherDescription (Some (inject_Z z))) weatherCodes /\
  In (z, getWeatherIcon (Some (inject_Z z))) iconMap.
Proof.
  intros Hz. unfold getWeatherDescription, getWeatherIcon, numeric_property.
  rewrite integer_key_of_integer.
  repeat (destruct Hz as [<-|Hz]; [split; vm_compute; tauto|]).
  destruct Hz.
Qed.

(** X6.  Away from the member names of [Object.prototype], the glyph table is
    total with the question mark as fallback. *)
Lemma getAlternativeIcon_own_or_fallback (iconCode : string) :
  ~ In iconCode Object_prototype ->
  (exists glyph,
     In (iconCode, glyph) alternativeIconMap /\
     getAlternativeIcon iconCode = VString glyph) \/
  (~ In iconCode (map fst alternativeIconMap) /\
   getAlternativeIcon iconCode = VString "❓").
Proof.
  intros Hproto. unfold getAlternativeIcon.
  destruct (own_property String.eqb alternativeIconMap iconCode) as [glyph|] eqn:Hown.
  - left. exists glyph.
    pose proof (own_property_listed _ _ _ _ (fun a b => proj1 (String.eqb_eq a b)) Hown)
      as Hin.
    split; [exact Hin|].
    destruct (String.eqb glyph EmptyString) eqn:E; [|reflexivity].
    apply String.eqb_eq in E. subst glyph. exfalso.
    vm_compute in Hin. repeat (destruct Hin as [Hin|Hin]; [discriminate|]).
    exact Hin.
  - right. split.
    + exact (own_property_absent _ _ _ String.eqb_refl Hown).
    + destruct (existsb (String.eqb iconCode) Object_prototype) eqn:E; [|reflexivity].
      exfalso. apply Hproto. apply existsb_exists in E as (name & Hin & Heq).
      apply String.eqb_eq in Heq. now subst.
Qed.



Lemma round_half_up_nonneg (deg : Q) :
  (- (45 # 2) <= deg)%Q -> (0 <= round_half_up (deg / 45))%Z.
Proof.
  intros Hdeg. unfold round_half_up.
  change 0%Z with (Qfloor 0). apply Qfloor_resp_le.
  setoid_replace (deg / 45 + (1 # 2))%Q with ((deg + (45 # 2)) / 45)%Q by field.
  apply Qle_shift_div_l; [reflexivity | lra].
Qed.


(** C7, at a negative angle.  At -45 degrees the remainder is -1 and the
    array read is [undefined], while one turn further, at 315 degrees, the
    label is the north-west one. *)
Theorem getWindDirection_negative_angle :
  getWindDirection (- 45) = None /\
  getWindDirection (- 45 + 360) = Some "СЗ" /\
  nth_error directions (Z.to_nat (round_half_up (- 45 / 45) mod 8)) = Some "СЗ".
Proof.
  repeat split.
Qed.

(** C6, at an inherited key.  For the string [constructor] the glyph table
    has no own entry and the read falls through to [Object.prototype],
    whose truthy member is returned in place of the fallback glyph. *)
Theorem getAlternativeIcon_inherited_key :
  own_property String.eqb alternativeIconMap "constructor" = None /\
  getAlternativeIcon "constructor" = VInherited "constructor" /\
  getAlternativeIcon "constructor" <> VString "❓".
Proof.
  repeat split. discriminate.
Qed.

(** ** Further properties of the static helpers *)

Lemma octant_of_nonneg (r : Z) :
  (0 <= r)%Z ->
  (if (Z.rem r 8 <? 0)%Z then None
   else nth_error directions (Z.to_nat (Z.rem r 8))) =
  nth_error directions (Z.to_nat (r mod 8)).
Proof.
  intros Hr. rewrite Z.rem_mod_nonneg by lia.
  pose proof (Z.mod_pos_bound r 8 ltac:(lia)) as Hb.
  destruct (Z.ltb_spec (r mod 8) 0); [lia | reflexivity].
Qed.

(** X2.  The wind rose is [undefined] exactly when the rounded quotient is
    negative and not a multiple of 8; whatever else it returns is one of
    the eight labels. *)
Theorem getWindDirection_undefined_iff (deg : Q) :
  (getWindDirection deg = None <->
   (round_half_up (deg / 45) < 0 /\ round_half_up (deg / 45) mod 8 <> 0)%Z) /\
  (forall label : string,
     getWindDirection deg = Some label -> In label directions).
Proof.
  unfold getWindDirection. cbn zeta.
  set (r := round_half_up (deg / 45)).
  assert (Hrem : (Z.rem r 8 < 0 <-> r < 0 /\ r mod 8 <> 0)%Z).
  { Z.to_euclidean_division_equations. lia. }
  assert (Hbound : (-8 < Z.rem r 8 < 8)%Z).
  { Z.to_euclidean_division_equations. lia. }
  destruct (Z.ltb_spec (Z.rem r 8) 0) as [Hneg|Hpos].
  - split; [|discriminate]. split; [intros _; now apply Hrem | reflexivity].
  - split.
    + split.
      * intros Hnone. apply nth_error_None in Hnone. simpl in Hnone. lia.
      * intros Hr. apply Hrem in Hr. lia.
    + intros label Hlabel. eapply nth_error_In. exact Hlabel.
Qed.

Lemma Qfloor_unique (x : Q) (k : Z) :
  (inject_Z k <= x)%Q -> (x < inject_Z k + 1)%Q -> Qfloor x = k.
Proof.
  intros Hlo Hhi.
  pose proof (Qfloor_le x) as Hfl.
  pose proof (Qlt_floor x) as Hfh. rewrite inject_Z_plus in Hfh.
  assert (H1 : (Qfloor x < k + 1)%Z).
  { rewrite Zlt_Qlt, inject_Z_plus. change (inject_Z 1) with 1%Q. lra. }
  assert (H2 : (k < Qfloor x + 1)%Z).
  { rewrite Zlt_Qlt, inject_Z_plus. change (inject_Z 1) with 1%Q in *. lra. }
  lia.
Qed.

(** X3.  The k-th sector of the rose is the half-open interval of 45 degrees
    centred on 45 k: its lower boundary belongs to it, its upper boundary
    to the next sector. *)
Theorem getWindDirection_sector (deg : Q) (k : Z) :
  (0 <= k)%Z ->
  (45 * inject_Z k - (45 # 2) <= deg)%Q ->
  (deg < 45 * inject_Z k + (45 # 2))%Q ->
  getWindDirection deg = nth_error directions (Z.to_nat (k mod 8)).
Proof.
  intros Hk Hlo Hhi.
  assert (Hr : round_half_up (deg / 45) = k).
  { unfold round_half_up. apply Qfloor_unique.
    - setoid_replace (deg / 45 + (1 # 2))%Q with ((deg + (45 # 2)) / 45)%Q by field.
      apply Qle_shift_div_l; [reflexivity | lra].
    - setoid_replace (deg / 45 + (1 # 2))%Q with ((deg + (45 # 2)) / 45)%Q by field.
      apply Qlt_shift_div_r; [reflexivity | lra]. }
  unfold getWindDirection. cbn zeta. rewrite Hr. now apply octant_of_nonneg.
Qed.

Lemma integer_key_sound (q : Q) (z : Z) :
  integer_key (Some q) = Some z -> (q == inject_Z z)%Q.
Proof.
  unfold integer_key. cbn zeta.
  destruct (Pos.eqb_spec (Qden (Qred q)) 1) as [Hden|]; [|discriminate].
  intros [= <-]. rewrite <- (Qred_correct q) at 1.
  destruct (Qred q) as [n d]. cbn in Hden |- *. subst d. reflexivity.
Qed.

Lemma integer_key_complete (q : Q) (z : Z) :
  (q == inject_Z z)%Q -> integer_key (Some q) = Some z.
Proof.
  intros Hq. rewrite <- (integer_key_of_integer z).
  unfold integer_key. now rewrite (Qred_complete _ _ Hq).
Qed.

(** X4.  Every code that is not one of the 22 listed integers, whatever its
    representation, and also a missing code, is classified as unknown with
    the clear-sky icon. *)
Theorem classifier_fallback_any_number (code : option Q) :
  (forall q z, code = Some q -> In z listed_codes -> ~ (q == inject_Z z)%Q) ->
  getWeatherDescription code = "Неизвестно" /\ getWeatherIcon code = "01d".
Proof.
  intros Hcode. unfold getWeatherDescription, getWeatherIcon, numeric_property.
  destruct code as [q|]; [|split; reflexivity].
  destruct (integer_key (Some q)) as [z|] eqn:Hkey; [|split; reflexivity].
  apply integer_key_sound in Hkey.
  assert (Hz : ~ In z listed_codes).
  { intros Hin. exact (Hcode q z eq_refl Hin Hkey). }
  rewrite !own_property_unlisted by exact Hz. split; reflexivity.
Qed.

(** X5.  A listed integer selects its two table entries in every representation
    of the number. *)
Theorem classifier_listed_any_number (q : Q) (z : Z) :
  (q == inject_Z z)%Q ->
  In z listed_codes ->
  In (z, getWeatherDescription (Some q)) weatherCodes /\
  In (z, getWeatherIcon (Some q)) iconMap.
Proof.
  intros Hq Hz. unfold getWeatherDescription, getWeatherIcon, numeric_property.
  rewrite (integer_key_complete q z Hq).
  repeat (destruct Hz as [<-|Hz]; [split; vm_compute; tauto|]).
  destruct Hz.
Qed.

Lemma getWeatherIcon_range (code : option Q) :
  In (getWeatherIcon code)
    ["01d"; "02d"; "03d"; "04d"; "50d"; "09d"; "10d"; "13d"; "11d"].
Proof.
  unfold getWeatherIcon, numeric_property.
  destruct (integer_key code) as [z|]; [|now left].
  destruct (own_property Z.eqb iconMap z) as [icon|] eqn:Hown; [|now left].
  apply own_property_listed in Hown; [|intros a b; apply Z.eqb_eq].
  unfold iconMap in Hown.
  repeat (destruct Hown as [[= <- <-]|Hown]; [vm_compute; tauto|]).
  destruct Hown.
Qed.

(** X7.  The icon chosen for a weather code always has an own glyph: the
    fallback shown when the icon image fails to load is never the question
    mark and never an inherited member. *)
Theorem icon_always_has_glyph (code : option Q) :
  exists glyph : string,
    In (getWeatherIcon code, glyph) alternativeIconMap /\
    getAlternativeIcon (getWeatherIcon code) = VString glyph /\
    glyph <> "❓".
Proof.
  pose proof (getWeatherIcon_range code) as Hicon.
  repeat (destruct Hicon as [<-|Hicon];
          [eexists; split; [|split; [reflexivity | discriminate]];
           vm_compute; tauto|]).
  destruct Hicon.
Qed.

(** X8.  A code without a description has no icon of its own either: the two
    tables list the same codes. *)
Theorem unknown_description_default_icon (code : option Q) :
  getWeatherDescription code = "Неизвестно" -> getWeatherIcon code = "01d".
Proof.
  unfold getWeatherDescription, getWeatherIcon, numeric_property.
  destruct (integer_key code) as [z|]; [|reflexivity].
  destruct (own_property Z.eqb weatherCodes z) as [d|] eqn:Hown.
  - apply own_property_listed in Hown; [|intros a b; apply Z.eqb_eq].
    unfold weatherCodes in Hown.
    repeat (destruct Hown as [[= <- <-]|Hown]; [vm_compute; discriminate|]).
    destruct Hown.
  - intros _. apply own_property_absent in Hown; [|apply Z.eqb_refl].
    now rewrite own_property_unlisted.
Qed.

(** ** Further properties of the formatters *)

Section FormatterEdges.
Context `{RT : Runtime}.

Lemma formatForecast_returned (data : OpenMeteoResponse.t)
  (location : Location.t) (f : ForecastData.t) :
  formatForecast data location = inr f ->
  exists daily : Daily.t,
    OpenMeteoResponse.daily data = Some daily /\
    (ForecastData.forecast f = [] \/
     exists hourly : Hourly.t,
       OpenMeteoResponse.hourly data = Some hourly /\
       ForecastData.forecast f =
         map (dayForecast daily hourly)
           (seq 0 (Nat.min 5 (length (Daily.time daily))))).
Proof.
  unfold formatForecast.
  destruct (OpenMeteoResponse.daily data) as [daily|]; [|discriminate].
  destruct (Nat.min 5 (length (Daily.time daily))) as [|n] eqn:Hb.
  - intros [= <-]. exists daily. split; [reflexivity | now left].
  - destruct (OpenMeteoResponse.hourly data) as [hourly|]; [|discriminate].
    intros [= <-]. exists daily. split; [reflexivity|]. right.
    exists hourly. split; [reflexivity|].
    rewrite Hb. unfold ForecastData.forecast. rewrite for_days_from. reflexivity.
Qed.

(** X9.  A returned day that owns no hourly sample has [NaN] for its three
    averages: the sum over no sample is 0 and is divided by the length 0. *)
Theorem empty_bucket_averages_NaN (data : OpenMeteoResponse.t)
  (location : Location.t) (f : ForecastData.t) (day : DailyForecast.t) :
  formatForecast data location = inr f ->
  In day (ForecastData.forecast f) ->
  DailyForecast.hourly day = [] ->
  DailyForecast.humidity day = NaN /\
  DailyForecast.pressure day = NaN /\
  DailyForecast.windSpeed day = NaN.
Proof.
  intros Hf Hday.
  destruct (formatForecast_days _ _ _ _ Hf Hday) as (daily & hourly & i & _ & ->).
  cbn [dayForecast DailyForecast.hourly DailyForecast.humidity
       DailyForecast.pressure DailyForecast.windSpeed].
  intros ->. repeat split.
Qed.

Lemma round_half_up_monotone (x y : Q) :
  (x <= y)%Q -> (round_half_up x <= round_half_up y)%Z.
Proof.
  intros Hxy. unfold round_half_up. apply Qfloor_resp_le. lra.
Qed.

Lemma round_half_up_integer (z : Z) : round_half_up (inject_Z z) = z.
Proof.
  unfold round_half_up. apply Qfloor_unique; lra.
Qed.

(** X10.  Where the daily axis gives a minimum not above the maximum, the three
    temperatures of the day are finite integers in that order: the rounded
    mid-point lies between the rounded minimum and the rounded maximum. *)
Theorem day_temperatures_ordered (data : OpenMeteoResponse.t)
  (location : Location.t) (daily : Daily.t) (f : ForecastData.t)
  (k : nat) (day : DailyForecast.t) (lo hi : Q) :
  OpenMeteoResponse.daily data = Some daily ->
  formatForecast data location = inr f ->
  nth_error (ForecastData.forecast f) k = Some day ->
  nth_error (Daily.temperature_2m_min daily) k = Some lo ->
  nth_error (Daily.temperature_2m_max daily) k = Some hi ->
  (lo <= hi)%Q ->
  exists a m b : Z,
    DailyForecast.tempMin day = Num (inject_Z a) /\
    DailyForecast.tempAvg day = Num (inject_Z m) /\
    DailyForecast.tempMax day = Num (inject_Z b) /\
    (a <= m <= b)%Z.
Proof.
  intros Hd Hf Hk Hlo Hhi Hle.
  destruct (formatForecast_returned _ _ _ Hf) as (daily' & Hd' & Hdays).
  assert (daily' = daily) as -> by congruence.
  destruct Hdays as [Hnil|(hourly & _ & Hdays)].
  { rewrite Hnil in Hk. destruct k; discriminate. }
  rewrite Hdays in Hk. apply forecast_nth in Hk as [_ ->].
  cbn [dayForecast DailyForecast.tempMin DailyForecast.tempAvg
       DailyForecast.tempMax].
  rewrite Hlo, Hhi. cbn [ToNumber number_add number_div Math_round].
  change (Qeq_bool 2 0) with false. cbn iota.
  exists (round_half_up lo), (round_half_up ((lo + hi) / 2)), (round_half_up hi).
  repeat split.
  - apply round_half_up_monotone. apply Qle_shift_div_l; [reflexivity | lra].
  - apply round_half_up_monotone. apply Qle_shift_div_r; [reflexivity | lra].
Qed.

Lemma sum_within_bounds {A : Type} (f : A -> number) (lo hi : Z) (arr : list A) :
  (forall h, In h arr ->
     exists z : Z, f h = Num (inject_Z z) /\ (lo <= z <= hi)%Z) ->
  forall acc : Q,
  exists s : Q,
    fold_left (fun sum h => number_add sum (f h)) arr (Num acc) = Num s /\
    (acc + inject_Z (Z.of_nat (length arr)) * inject_Z lo <= s)%Q /\
    (s <= acc + inject_Z (Z.of_nat (length arr)) * inject_Z hi)%Q.
Proof.
  induction arr as [|h rest IH]; intros Hall acc.
  - exists acc. cbn [fold_left length]. change (inject_Z (Z.of_nat 0)) with 0%Q.
    repeat split; lra.
  - destruct (Hall h (or_introl eq_refl)) as (z & Hz & Hzlo & Hzhi).
    cbn [fold_left]. rewrite Hz. cbn [number_add].
    destruct (IH (fun h' Hin => Hall h' (or_intror Hin)) (acc + inject_Z z)%Q)
      as (s & Hs & Hslo & Hshi).
    exists s. split; [exact Hs|].
    cbn [length]. rewrite Nat2Z.inj_succ. unfold Z.succ.
    rewrite inject_Z_plus. change (inject_Z 1) with 1%Q.
    rewrite Zle_Qle in Hzlo, Hzhi.
    split; lra.
Qed.

(** X11.  The humidity of a day lies within the range of the humidities of its
    own samples: if every sample of a non-empty bucket has an integer
    humidity between [lo] and [hi], so has the day. *)
Theorem day_humidity_within_samples (data : OpenMeteoResponse.t)
  (location : Location.t) (f : ForecastData.t) (day : DailyForecast.t)
  (lo hi : Z) :
  formatForecast data location = inr f ->
  In day (ForecastData.forecast f) ->
  DailyForecast.hourly day <> [] ->
  (forall h, In h (DailyForecast.hourly day) ->
     exists z : Z,
       HourlyWeatherData.humidity h = Num (inject_Z z) /\ (lo <= z <= hi)%Z) ->
  exists z : Z,
    DailyForecast.humidity day = Num (inject_Z z) /\ (lo <= z <= hi)%Z.
Proof.
  intros Hf Hday.
  destruct (formatForecast_days _ _ _ _ Hf Hday) as (daily & hourly & i & _ & ->).
  cbn [dayForecast DailyForecast.hourly DailyForecast.humidity].
  set (samples := forEach_time hourly _ (Hourly.time hourly) 0 []).
  intros Hne Hall.
  destruct (sum_within_bounds HourlyWeatherData.humidity lo hi samples Hall 0)
    as (s & Hs & Hslo & Hshi).
  unfold reduce_sum. rewrite Hs. unfold count. cbn [number_div].
  assert (Hlen : length samples <> 0%nat) by (destruct samples; [congruence | discriminate]).
  rewrite (count_positive _ Hlen). cbn [Math_round].
  assert (Hpos : (0 < inject_Z (Z.of_nat (length samples)))%Q).
  { change 0%Q with (inject_Z 0). rewrite <- Zlt_Qlt. lia. }
  eexists. split; [reflexivity|]. split.
  - rewrite <- (round_half_up_integer lo) at 1. apply round_half_up_monotone.
    apply Qle_shift_div_l; [exact Hpos | lra].
  - rewrite <- (round_half_up_integer hi) at 1. apply round_half_up_monotone.
    apply Qle_shift_div_r; [exact Hpos | lra].
Qed.

End FormatterEdges.

Section CurrentEdges.
Context `{RT : Runtime}.

Lemma whole_round_read (arr : list Q) (index : nat) :
  whole (Math_round (ToNumber (nth_error arr index))) <->
  (index < length arr)%nat.
Proof.
  rewrite <- nth_error_Some.
  destruct (nth_error arr index) as [q|]; cbn; split.
  - discriminate.
  - intros _. eexists. reflexivity.
  - intros [z Hz]. discriminate.
  - congruence.
Qed.

Lemma whole_round_scaled_read (arr : list Q) (index : nat) (k : Q) :
  whole (Math_round (number_mul (ToNumber (nth_error arr index)) (Num k))) <->
  (index < length arr)%nat.
Proof.
  rewrite <- nth_error_Some.
  destruct (nth_error arr index) as [q|]; cbn; split.
  - discriminate.
  - intros _. eexists. reflexivity.
  - intros [z Hz]. discriminate.
  - congruence.
Qed.

Lemma whole_round_min (args : list Q) :
  whole (Math_round (Math_min args)) <-> args <> [].
Proof.
  split.
  - intros [z Hz] ->. discriminate.
  - intros Hne. destruct (Math_min_least args Hne) as (m & -> & _).
    eexists. reflexivity.
Qed.

Lemma whole_round_max (args : list Q) :
  whole (Math_round (Math_max args)) <-> args <> [].
Proof.
  split.
  - intros [z Hz] ->. discriminate.
  - intros Hne. destruct (Math_max_greatest args Hne) as (m & -> & _).
    eexists. reflexivity.
Qed.

(** X12.  With the snapshot and both axes present, the eight rounded fields of
    the current conditions are all finite integers exactly when the two
    daily temperature arrays are non-empty and each of the five hourly
    arrays has an entry at the current hour; otherwise some field is [NaN]
    or an infinity. *)
Theorem current_conditions_whole_iff (data : OpenMeteoResponse.t)
  (location : Location.t) (currentHour : nat) (current : CurrentWeather.t)
  (daily : Daily.t) (hourly : Hourly.t) :
  OpenMeteoResponse.current_weather data = Some current ->
  OpenMeteoResponse.daily data = Some daily ->
  OpenMeteoResponse.hourly data = Some hourly ->
  exists w : WeatherData.t,
    formatCurrentWeather data location currentHour = inr w /\
    ((whole (WeatherData.temp w) /\
      whole (WeatherData.tempMin w) /\
      whole (WeatherData.tempMax w) /\
      whole (WeatherData.feelsLike w) /\
      whole (WeatherData.humidity w) /\
      whole (WeatherData.pressure w) /\
      whole (WeatherData.clouds w) /\
      whole (WeatherData.visibility w)) <->
     (Daily.temperature_2m_min daily <> [] /\
      Daily.temperature_2m_max daily <> [] /\
      (currentHour < length (Hourly.apparent_temperature hourly))%nat /\
      (currentHour < length (Hourly.relative_humidity_2m hourly))%nat /\
      (currentHour < length (Hourly.pressure_msl hourly))%nat /\
      (currentHour < length (Hourly.cloudcover hourly))%nat /\
      (currentHour < length (Hourly.visibility hourly))%nat)).
Proof.
  intros Hc Hd Hh. unfold formatCurrentWeather. rewrite Hc, Hd, Hh.
  eexists. split; [reflexivity|].
  cbn [WeatherData.temp WeatherData.tempMin WeatherData.tempMax
       WeatherData.feelsLike WeatherData.humidity WeatherData.pressure
       WeatherData.clouds WeatherData.visibility].
  rewrite whole_round_min, whole_round_max, !whole_round_read,
    whole_round_scaled_read.
  split.
  - intros (_ & H). exact H.
  - intros H. split; [eexists; reflexivity | exact H].
Qed.

End CurrentEdges.

Section Partition.
Context `{RT : Runtime}.

Lemma owned_disjoint_NoDup (hourly : Hourly.t) (dates : list Date) :
  NoDup (map toDateString dates) ->
  NoDup (concat (map (ownedIndices hourly) dates)).
Proof.
  induction dates as [|date rest IH]; intros Hnd; [constructor|].
  cbn [map concat] in *. apply NoDup_cons_iff in Hnd as [Hfresh Hnd].
  apply NoDup_app.
  - apply ownedIndices_NoDup.
  - now apply IH.
  - intros index Hhere Hthere. apply Hfresh.
    apply in_concat in Hthere as (bucket & Hbucket & Hin).
    apply in_map_iff in Hbucket as (date' & <- & Hdate').
    apply owns_iff in Hhere as (time & Hat & Hday).
    apply owns_iff in Hin as (time' & Hat' & Hday').
    assert (time' = time) as -> by congruence.
    rewrite <- Hday, Hday'. now apply in_map.
Qed.

Lemma returned_buckets (data : OpenMeteoResponse.t) (location : Location.t)
  (hourly : Hourly.t) (f : ForecastData.t) :
  OpenMeteoResponse.hourly data = Some hourly ->
  formatForecast data location = inr f ->
  map DailyForecast.hourly (ForecastData.forecast f) =
  map (fun day => map (sampleAt hourly)
                    (ownedIndices hourly (DailyForecast.date day)))
    (ForecastData.forecast f).
Proof.
  intros Hh Hf. apply map_ext_in. intros day Hday.
  destruct (formatForecast_days _ _ _ _ Hf Hday)
    as (daily & hourly' & i & Hh' & ->).
  assert (hourly' = hourly) as -> by congruence.
  apply dayForecast_hourly.
Qed.

Lemma length_concat_map {A B : Type} (g : A -> B) (ls : list (list A)) :
  length (concat (map (map g) ls)) = length (concat ls).
Proof.
  induction ls as [|l rest IH]; [reflexivity|].
  cbn [map concat]. now rewrite !length_app, length_map, IH.
Qed.

(** X13.  When the returned days have pairwise different calendar dates and
    every hourly sample falls on the date of one of them, the buckets
    partition the hourly axis: the owned indices of the days, put together,
    are the indices of the axis, each once, and the buckets hold as many
    samples as the axis. *)
Theorem buckets_partition_when_days_cover (data : OpenMeteoResponse.t)
  (location : Location.t) (hourly : Hourly.t) (f : ForecastData.t) :
  OpenMeteoResponse.hourly data = Some hourly ->
  formatForecast data location = inr f ->
  NoDup (map (fun day => toDateString (DailyForecast.date day))
           (ForecastData.forecast f)) ->
  (forall time : string,
     In time (Hourly.time hourly) ->
     exists day : DailyForecast.t,
       In day (ForecastData.forecast f) /\
       toDateString (newDate (Some time)) =
       toDateString (DailyForecast.date day)) ->
  Permutation
    (concat (map (fun day => ownedIndices hourly (DailyForecast.date day))
               (ForecastData.forecast f)))
    (seq 0 (length (Hourly.time hourly))) /\
  length (concat (map DailyForecast.hourly (ForecastData.forecast f))) =
  length (Hourly.time hourly).
Proof.
  intros Hh Hf Hdistinct Hcover.
  set (days := ForecastData.forecast f) in *.
  assert (Hperm :
    Permutation
      (concat (map (fun day => ownedIndices hourly (DailyForecast.date day)) days))
      (seq 0 (length (Hourly.time hourly)))).
  { apply NoDup_Permutation.
    - rewrite <- (map_map DailyForecast.date (ownedIndices hourly)).
      apply owned_disjoint_NoDup. now rewrite map_map.
    - apply seq_NoDup.
    - intros index. rewrite in_concat, in_seq. split.
      + intros (bucket & Hbucket & Hin).
        apply in_map_iff in Hbucket as (day & <- & _).
        apply owns_iff in Hin as (time & Hat & _).
        split; [lia|]. simpl. apply nth_error_Some. congruence.
      + intros [_ Hlt]. simpl in Hlt.
        destruct (nth_error (Hourly.time hourly) index) as [time|] eqn:Hat;
          [|apply nth_error_None in Hat; lia].
        destruct (Hcover time (nth_error_In _ _ Hat)) as (day & Hday & Hsame).
        exists (ownedIndices hourly (DailyForecast.date day)). split.
        * apply in_map_iff. now exists day.
        * apply owns_iff. now exists time. }
  split; [exact Hperm|].
  subst days. rewrite (returned_buckets _ _ _ _ Hh Hf).
  rewrite <- (map_map (fun day => ownedIndices hourly (DailyForecast.date day))
                (map (sampleAt hourly))).
  rewrite length_concat_map, (Permutation_length Hperm). apply length_seq.
Qed.

End Partition.

(** ** Further properties of the facade *)

Lemma or_else_nonempty (v : option string) (fallback : string) :
  fallback <> "" -> or_else v fallback <> "".
Proof.
  intros Hfb. unfold or_else. destruct v as [s|]; [|exact Hfb].
  destruct (String.eqb_spec s ""); assumption.
Qed.

Lemma or_else_keeps (s fallback : string) :
  s <> "" -> or_else (Some s) fallback = s.
Proof.
  intros Hs. unfold or_else. now destruct (String.eqb_spec s "").
Qed.

Lemma handleError_message_nonempty (error : exn) :
  message_of (handleError error) <> "".
Proof.
  destruct error as [e|m]; unfold handleError.
  - destruct (AxiosError.response e) as [status|].
    + destruct status as [|p|p]; [discriminate| |discriminate].
      repeat (destruct p as [p|p|]; try discriminate).
    + destruct (AxiosError.request e); [discriminate|].
      cbn [message_of]. apply or_else_nonempty. discriminate.
  - cbn [message_of]. apply or_else_nonempty. discriminate.
Qed.

Lemma handleError_again_fixed (error : Error) :
  message_of error <> "" -> handleError_again error = error.
Proof.
  destruct error as [m]. cbn [message_of handleError_again]. intros Hm.
  now rewrite or_else_keeps.
Qed.

Section FacadeEdges.
Context `{RT : Runtime}.

(** X14.  The facade returns exactly when the forecast request succeeds with a
    payload that carries the snapshot, the daily axis and the hourly axis;
    the reverse lookup has no part in it. *)
Theorem facade_returns_iff (axios : Axios) (currentHour : nat) (lat lon : Q)
  (units : Units) :
  (exists weatherData,
     getWeatherAndForecast axios currentHour lat lon units = inr weatherData) <->
  (exists data : OpenMeteoResponse.t,
     get_forecast axios lat lon
       match units with imperial => "fahrenheit" | metric => "celsius" end
       match units with imperial => "mph" | metric => "ms" end = inr data /\
     OpenMeteoResponse.current_weather data <> None /\
     OpenMeteoResponse.daily data <> None /\
     OpenMeteoResponse.hourly data <> None).
Proof.
  unfold getWeatherAndForecast.
  destruct (get_forecast axios lat lon _ _) as [e|data].
  { split; [intros [r Hr]; discriminate | intros (d & Hd & _); discriminate]. }
  unfold formatCurrentWeather.
  destruct (OpenMeteoResponse.current_weather data) as [current|] eqn:Hc.
  2:{ split; [intros [r Hr]; discriminate|].
      intros (d & [= <-] & H & _). rewrite Hc in H. congruence. }
  destruct (OpenMeteoResponse.daily data) as [daily|] eqn:Hd.
  2:{ split; [intros [r Hr]; discriminate|].
      intros (d & [= <-] & _ & H & _). rewrite Hd in H. congruence. }
  destruct (OpenMeteoResponse.hourly data) as [hourly|] eqn:Hh.
  2:{ split; [intros [r Hr]; discriminate|].
      intros (d & [= <-] & _ & _ & H). rewrite Hh in H. congruence. }
  rewrite (formatForecast_complete data _ daily hourly Hd Hh).
  split.
  - intros _. exists data. rewrite Hc, Hd, Hh. repeat split; discriminate.
  - intros _. eexists. reflexivity.
Qed.

Lemma facade_error_handled (axios : Axios) (currentHour : nat)
  (lat lon : Q) (units : Units) (err : Error) :
  getWeatherAndForecast axios currentHour lat lon units = inl err ->
  exists thrown : exn, err = handleError thrown.
Proof.
  unfold getWeatherAndForecast.
  destruct (get_forecast axios lat lon _ _) as [e|data].
  - intros [= <-]. now exists e.
  - destruct (formatCurrentWeather data _ currentHour) as [e|w].
    + intros [= <-]. now exists e.
    + destruct (formatForecast data _) as [e|f]; [|discriminate].
      intros [= <-]. now exists e.
Qed.

(** X15.  A failure of the facade is an [Error] made by [handleError], and its
    message is never empty. *)
Theorem facade_error_message_nonempty (axios : Axios) (currentHour : nat)
  (lat lon : Q) (units : Units) (err : Error) :
  getWeatherAndForecast axios currentHour lat lon units = inl err ->
  (exists thrown : exn, err = handleError thrown) /\ message_of err <> "".
Proof.
  intros Hfailed.
  destruct (facade_error_handled _ _ _ _ _ _ Hfailed) as [thrown ->].
  split; [now exists thrown | apply handleError_message_nonempty].
Qed.

(** X16.  The label of the reverse lookup always has a city: the lookup's city,
    town or village, or [Unknown]; the country is empty or an upper-cased
    country code. *)
Theorem reverse_label_never_empty (axios : Axios) (lat lon : Q) :
  Location.city (getCityNameByCoords axios lat lon) <> "" /\
  (Location.country (getCityNameByCoords axios lat lon) = "" \/
   exists code : string,
     Location.country (getCityNameByCoords axios lat lon) = toUpperCase code).
Proof.
  unfold getCityNameByCoords.
  destruct (get_reverse axios lat lon) as [e|data]; cbn [Location.city Location.country].
  - split; [discriminate | now left].
  - split; [apply or_else_nonempty; discriminate|].
    destruct (NominatimResponse.address data) as [a|]; [|now left].
    destruct (Address.country_code a) as [code|]; [|now left].
    cbn [option_map or_else].
    destruct (String.eqb (toUpperCase code) ""); [now left | right; now exists code].
Qed.

(** X17.  The city of the label is chosen in the order city, town, village,
    passing over a missing or empty name. *)
Theorem reverse_label_priority (axios : Axios) (lat lon : Q)
  (data : NominatimResponse.t) (a : Address.t) (place : string) :
  get_reverse axios lat lon = inr data ->
  NominatimResponse.address data = Some a ->
  place <> "" ->
  (Address.city a = Some place ->
   Location.city (getCityNameByCoords axios lat lon) = place) /\
  ((Address.city a = None \/ Address.city a = Some "") ->
   Address.town a = Some place ->
   Location.city (getCityNameByCoords axios lat lon) = place) /\
  ((Address.city a = None \/ Address.city a = Some "") ->
   (Address.town a = None \/ Address.town a = Some "") ->
   Address.village a = Some place ->
   Location.city (getCityNameByCoords axios lat lon) = place).
Proof.
  intros Hrev Haddr Hplace. unfold getCityNameByCoords.
  rewrite Hrev, Haddr. cbn [Location.city].
  assert (Hneq : String.eqb place "" = false) by now apply String.eqb_neq.
  repeat split.
  - intros ->. unfold first_truthy, or_else. now rewrite !Hneq.
  - intros [-> | ->] ->; unfold first_truthy, or_else;
      change (String.eqb "" "") with true; cbn iota; now rewrite !Hneq.
  - intros [-> | ->] [-> | ->] ->; unfold first_truthy, or_else;
      change (String.eqb "" "") with true; cbn iota; now rewrite !Hneq.
Qed.

End FacadeEdges.

(** ** Lookup by city name *)

Section CityEdges.
Context `{RT : Runtime}.
Variable parseFloat : string -> number.

(** X18.  A search that finds no place makes [getWeatherByCity] fail with the
    not-found message, whatever the forecast and reverse requests would
    have answered. *)
Theorem city_not_found (net : Network) (currentHour : nat)
  (cityName : string) (units : Units) :
  get_search net cityName = inr [] ->
  getWeatherByCity parseFloat net currentHour cityName units =
  inl (NewError "Город не найден").
Proof.
  intros Hsearch. unfold getWeatherByCity, getCoordinatesByCity.
  now rewrite Hsearch.
Qed.

(** X19.  A rejected search fails with the [Error] that [handleError] makes of
    the rejection: handling it a second time on the way out changes
    nothing. *)
Theorem city_search_rejected (net : Network) (currentHour : nat)
  (cityName : string) (units : Units) (thrown : exn) :
  get_search net cityName = inl thrown ->
  getWeatherByCity parseFloat net currentHour cityName units =
  inl (handleError thrown).
Proof.
  intros Hsearch. unfold getWeatherByCity, getCoordinatesByCity.
  rewrite Hsearch. f_equal. apply handleError_again_fixed.
  apply handleError_message_nonempty.
Qed.

(** X20.  When the search finds places, [getWeatherByCity] is
    [getWeatherAndForecast] at the parsed coordinates of the first place:
    the same result and, on failure, the same [Error]. *)
Theorem city_delegates_to_coordinates (net : Network) (currentHour : nat)
  (cityName : string) (units : Units)
  (first : NominatimResponse.t) (others : list NominatimResponse.t) :
  get_search net cityName = inr (first :: others) ->
  getWeatherByCity parseFloat net currentHour cityName units =
  getWeatherAndForecast
    (axiosAt net (parseFloat (NominatimResponse.lat first))
       (parseFloat (NominatimResponse.lon first)))
    currentHour 0 0 units.
Proof.
  intros Hsearch. unfold getWeatherByCity, getCoordinatesByCity.
  rewrite Hsearch. cbn [Coordinates.lat Coordinates.lon].
  destruct (getWeatherAndForecast _ currentHour 0 0 units) as [err|r] eqn:Hfacade;
    [|reflexivity].
  f_equal. apply handleError_again_fixed.
  destruct (facade_error_handled _ _ _ _ _ _ Hfacade) as [thrown ->].
  apply handleError_message_nonempty.
Qed.

(** X21.  The name of the coordinates found is the first non-empty of the
    place's city, town and village, and the text searched for when the
    place has none. *)
Theorem coordinates_name_fallback (net : Network) (cityName : string)
  (first : NominatimResponse.t) (others : list NominatimResponse.t) :
  get_search net cityName = inr (first :: others) ->
  exists coords : Coordinates.t,
    getCoordinatesByCity parseFloat net cityName = inr (Some coords) /\
    (NominatimResponse.address first = None -> Coordinates.name coords = cityName) /\
    (forall a : Address.t,
       NominatimResponse.address first = Some a ->
       (Address.city a = None \/ Address.city a = Some "") ->
       (Address.town a = None \/ Address.town a = Some "") ->
       (Address.village a = None \/ Address.village a = Some "") ->
       Coordinates.name coords = cityName) /\
    (forall (a : Address.t) (place : string),
       NominatimResponse.address first = Some a ->
       Address.city a = Some place -> place <> "" ->
       Coordinates.name coords = place).
Proof.
  intros Hsearch. unfold getCoordinatesByCity. rewrite Hsearch.
  eexists. split; [reflexivity|]. cbn [Coordinates.name]. repeat split.
  - intros ->. reflexivity.
  - intros a -> [-> | ->] [-> | ->] [-> | ->]; unfold first_truthy, or_else;
      change (String.eqb "" "") with true; cbn iota;
      now destruct (String.eqb cityName "").
  - intros a place -> -> Hplace. unfold first_truthy, or_else.
    apply String.eqb_neq in Hplace. now rewrite !Hplace.
Qed.

End CityEdges.

(** ** The display component *)

Section ComponentEdges.
Context `{RT : Runtime}.
Variable parseFloat : string -> number.
Variable trim : string -> string.

Lemma city_error_message_nonempty (net : Network) (currentHour : nat)
  (cityName : string) (units : Units) (err : Error) :
  getWeatherByCity parseFloat net currentHour cityName units = inl err ->
  message_of err <> "".
Proof.
  unfold getWeatherByCity.
  assert (Hagain : forall e, message_of (handleError_again e) <> "").
  { intros [m]. cbn [handleError_again message_of].
    apply or_else_nonempty. discriminate. }
  destruct (getCoordinatesByCity parseFloat net cityName) as [e|[coords|]].
  - intros [= <-]. apply Hagain.
  - destruct (getWeatherAndForecast _ currentHour 0 0 units) as [e|r];
      [|discriminate].
    intros [= <-]. apply Hagain.
  - intros [= <-]. apply (Hagain (NewError "Город не найден")).
Qed.

(** X22.  A search never touches the text typed nor the forecast toggle.  On a
    blank name it only sets the prompt to enter a city.  On any other name
    it ends with [loading] off and either the data of [getWeatherByCity]
    and no error, or no data, no selected day and the message of the
    failure, which is shown as it is because it is never empty. *)
Theorem searchWeather_outcome (net : Network) (currentHour : nat)
  (units : Units) (todayStr : string) (refs : Display.t) :
  let after := searchWeather parseFloat trim net currentHour units todayStr refs in
  Display.searchCity after = Display.searchCity refs /\
  Display.showForecast after = Display.showForecast refs /\
  (trim (Display.searchCity refs) = "" ->
   Display.error after = Some "Введите название города" /\
   Display.currentWeather after = Display.currentWeather refs /\
   Display.forecast after = Display.forecast refs /\
   Display.selectedDay after = Display.selectedDay refs /\
   Display.loading after = Display.loading refs) /\
  (trim (Display.searchCity refs) <> "" ->
   Display.loading after = false /\
   ((exists current forecast,
       getWeatherByCity parseFloat net currentHour (Display.searchCity refs) units =
         inr (current, forecast) /\
       Display.currentWeather after = Some current /\
       Display.forecast after = Some forecast /\
       Display.error after = None) \/
    (exists err,
       getWeatherByCity parseFloat net currentHour (Display.searchCity refs) units =
         inl err /\
       Display.currentWeather after = None /\
       Display.forecast after = None /\
       Display.selectedDay after = None /\
       Display.error after = Some (message_of err)))).
Proof.
  cbn zeta. unfold searchWeather.
  destruct (String.eqb_spec (trim (Display.searchCity refs)) "") as [Hblank|Hname].
  - split; [reflexivity|]. split; [reflexivity|].
    split; [intros _; repeat split | intros Hname; contradiction].
  - destruct (getWeatherByCity parseFloat net currentHour (Display.searchCity refs) units)
      as [err|[current forecast]] eqn:Hcity.
    + split; [reflexivity|]. split; [reflexivity|].
      split; [intros Hblank; contradiction|].
      intros _. split; [reflexivity|].
      right. exists err. repeat split.
      cbn [Display.error]. f_equal. apply or_else_keeps.
      exact (city_error_message_nonempty _ _ _ _ _ Hcity).
    + split; [reflexivity|]. split; [reflexivity|].
      split; [intros Hblank; contradiction|].
      intros _. split; [reflexivity|].
      left. exists current, forecast. repeat split.
Qed.

(** X23.  The day selected after a search is the first day of the new forecast
    whose calendar date is today's: it belongs to the forecast shown, its
    date reads as today, and no day before it does. *)
Theorem searchWeather_selects_today (net : Network) (currentHour : nat)
  (units : Units) (todayStr : string) (refs : Display.t)
  (day : DailyForecast.t) :
  trim (Display.searchCity refs) <> "" ->
  Display.selectedDay
    (searchWeather parseFloat trim net currentHour units todayStr refs) =
    Some day ->
  exists (forecast : ForecastData.t) (before after : list DailyForecast.t),
    Display.forecast
      (searchWeather parseFloat trim net currentHour units todayStr refs) =
      Some forecast /\
    ForecastData.forecast forecast = (before ++ day :: after)%list /\
    toDateString (DailyForecast.date day) = todayStr /\
    forall earlier : DailyForecast.t,
      In earlier before ->
      toDateString (DailyForecast.date earlier) <> todayStr.
Proof.
  intros Hname. unfold searchWeather.
  destruct (String.eqb_spec (trim (Display.searchCity refs)) "") as [Hblank|_];
    [congruence|].
  destruct (getWeatherByCity parseFloat net currentHour (Display.searchCity refs) units)
    as [err|[current forecast]]; cbn [Display.selectedDay Display.forecast];
    [discriminate|].
  intros Hfind. exists forecast.
  induction (ForecastData.forecast forecast) as [|d rest IH]; [discriminate|].
  cbn [find] in Hfind.
  destruct (String.eqb_spec (toDateString (DailyForecast.date d)) todayStr)
    as [Htoday|Hother].
  - injection Hfind as <-. exists [], rest. repeat split; [exact Htoday|].
    intros earlier [].
  - destruct (IH Hfind) as (before & after & _ & Hsplit & Htoday & Hbefore).
    exists (d :: before), after. split; [reflexivity|].
    split; [cbn; now rewrite Hsplit|]. split; [exact Htoday|].
    intros earlier [<-|Hin]; [exact Hother | now apply Hbefore].
Qed.

(** X24.  The wind direction shown for returned current conditions is one of the
    eight labels whenever the snapshot's direction is not negative. *)
Theorem shown_wind_direction_is_label (data : OpenMeteoResponse.t)
  (location : Location.t) (currentHour : nat) (current : CurrentWeather.t)
  (w : WeatherData.t) :
  OpenMeteoResponse.current_weather data = Some current ->
  formatCurrentWeather data location currentHour = inr w ->
  (0 <= CurrentWeather.winddirection current)%Q ->
  exists label : string,
    shownWindDirection w = Some label /\ In label directions.
Proof.
  intros Hc. unfold formatCurrentWeather. rewrite Hc.
  destruct (OpenMeteoResponse.daily data); [|discriminate].
  destruct (OpenMeteoResponse.hourly data); [|discriminate].
  intros [= <-] Hdeg. unfold shownWindDirection. cbn [WeatherData.windDeg].
  assert (Hlow : (- (45 # 2) <= CurrentWeather.winddirection current)%Q) by lra.
  pose proof (round_half_up_nonneg _ Hlow) as Hr.
  unfold getWindDirection. cbn zeta. rewrite octant_of_nonneg by exact Hr.
  pose proof (Z.mod_pos_bound (round_half_up (CurrentWeather.winddirection current / 45)) 8
                ltac:(lia)) as Hb.
  destruct (nth_error directions
              (Z.to_nat (round_half_up (CurrentWeather.winddirection current / 45) mod 8)))
    as [label|] eqn:Hlabel.
  - exists label. split; [reflexivity | eapply nth_error_In; exact Hlabel].
  - apply nth_error_None in Hlabel. simpl in Hlabel. lia.
Qed.

(** X25.  Every icon in what the formatters return has an own glyph, so the
    replacement drawn when an icon image fails to load is never the
    question mark: this holds for the current conditions, for every day
    and for every hourly sample. *)
Theorem returned_icons_have_glyphs (data : OpenMeteoResponse.t)
  (location : Location.t) (currentHour : nat) :
  (forall w : WeatherData.t,
     formatCurrentWeather data location currentHour = inr w ->
     exists glyph : string,
       getAlternativeIcon (WeatherData.icon w) = VString glyph /\ glyph <> "❓") /\
  (forall (f : ForecastData.t) (day : DailyForecast.t),
     formatForecast data location = inr f ->
     In day (ForecastData.forecast f) ->
     (exists glyph : string,
        getAlternativeIcon (DailyForecast.icon day) = VString glyph /\
        glyph <> "❓") /\
     forall h : HourlyWeatherData.t,
       In h (DailyForecast.hourly day) ->
       exists glyph : string,
         getAlternativeIcon (HourlyWeatherData.icon h) = VString glyph /\
         glyph <> "❓").
Proof.
  assert (Hglyph : forall code,
            exists glyph : string,
              getAlternativeIcon (getWeatherIcon code) = VString glyph /\
              glyph <> "❓").
  { intros code. pose proof (getWeatherIcon_range code) as Hicon.
    repeat (destruct Hicon as [<-|Hicon];
            [eexists; split; [reflexivity | discriminate]|]).
    destruct Hicon. }
  split.
  - intros w. unfold formatCurrentWeather.
    destruct (OpenMeteoResponse.current_weather data); [|discriminate].
    destruct (OpenMeteoResponse.daily data); [|discriminate].
    destruct (OpenMeteoResponse.hourly data); [|discriminate].
    intros [= <-]. apply Hglyph.
  - intros f day Hf Hday.
    destruct (formatForecast_days _ _ _ _ Hf Hday) as (daily & hourly & i & _ & ->).
    split; [apply Hglyph|].
    intros h. rewrite dayForecast_hourly. intros Hh.
    apply in_map_iff in Hh as (index & <- & _). apply Hglyph.
Qed.

End ComponentEdges.

(** ** The statements on the sample payloads *)

#[local] Existing Instance isoRuntime.


(** C2, as stated, fails: with six daily entries the sample of the sixth
    day is on the hourly axis and in the bucket of none of the five
    returned days, so the buckets hold one sample of the two. *)
Lemma sixth_day_sample_in_no_bucket :
  exists f : ForecastData.t,
    formatForecast (payload sixDays firstAndSixthDay) london = inr f /\
    nth_error (Hourly.time firstAndSixthDay) 1 = Some "2024-01-06T00:00" /\
    (forall day : DailyForecast.t,
       In day (ForecastData.forecast f) ->
       ~ In 1%nat (ownedIndices firstAndSixthDay (DailyForecast.date day))) /\
    concat (map DailyForecast.hourly (ForecastData.forecast f)) =
      [sampleAt firstAndSixthDay 0] /\
    length (concat (map DailyForecast.hourly (ForecastData.forecast f))) <>
      length (Hourly.time firstAndSixthDay).
Proof.
  eexists. split; [reflexivity|]. split; [reflexivity|]. split; [|split].
  - intros day Hday. vm_compute in Hday.
    repeat (destruct Hday as [<-|Hday];
            [vm_compute; intuition discriminate|]).
    destruct Hday.
  - reflexivity.
  - vm_compute. discriminate.
Qed.

Lemma buckets_by_calendar_date_sample :
  OpenMeteoResponse.hourly (payload sixDays firstAndSixthDay) =
    Some firstAndSixthDay /\
  exists f : ForecastData.t,
    formatForecast (payload sixDays firstAndSixthDay) london = inr f /\
    forall day : DailyForecast.t,
      In day (ForecastData.forecast f) ->
      DailyForecast.hourly day =
        map (sampleAt firstAndSixthDay)
          (ownedIndices firstAndSixthDay (DailyForecast.date day)).
Proof.
  split; [reflexivity|]. eexists. split; [reflexivity|].
  intros day Hday.
  apply (proj1 (buckets_by_calendar_date (payload sixDays firstAndSixthDay)
                  london firstAndSixthDay _ eq_refl eq_refl) day Hday).
Defined.


(** The snapshot with minima 5, 8 and maxima 18, 22, and with the day
    pairs (5, 8), (18, 22). *)
Lemma current_extremes_sample :
  Daily.temperature_2m_min twoDays <> [] /\
  Daily.temperature_2m_max twoDays <> [] /\
  (exists w : WeatherData.t,
     formatCurrentWeather (payload twoDays twoHours) london 1 = inr w /\
     WeatherData.tempMin w = Num 5 /\ WeatherData.tempMax w = Num 22) /\
  (exists w : WeatherData.t,
     formatCurrentWeather (payload twoDayPairs twoHours) london 1 = inr w /\
     WeatherData.tempMin w = Num 5 /\ WeatherData.tempMax w = Num 22).
Proof.
  assert (Hmin : Daily.temperature_2m_min twoDays <> []) by discriminate.
  assert (Hmax : Daily.temperature_2m_max twoDays <> []) by discriminate.
  assert (Hmin' : Daily.temperature_2m_min twoDayPairs <> []) by discriminate.
  assert (Hmax' : Daily.temperature_2m_max twoDayPairs <> []) by discriminate.
  split; [exact Hmin|]. split; [exact Hmax|]. split.
  - destruct (current_extremes_span_all_days (payload twoDays twoHours) london 1
                snapshot twoDays twoHours eq_refl eq_refl eq_refl Hmin Hmax)
      as (w & Hw & _ & _ & Hfirst & _).
    exists w. split; [exact Hw | apply Hfirst; reflexivity].
  - destruct (current_extremes_span_all_days (payload twoDayPairs twoHours)
                london 1 snapshot twoDayPairs twoHours eq_refl eq_refl eq_refl
                Hmin' Hmax')
      as (w & Hw & _ & _ & _ & Hsecond).
    exists w. split; [exact Hw | apply Hsecond; reflexivity].
Defined.

(** C5, as stated, fails: the hourly arrays have two entries, the current
    hour is 10, and a record is returned whose hourly fields are [NaN]. *)
Lemma missing_hour_builds_record :
  (length (Hourly.time twoHours) <= 10)%nat /\
  exists w : WeatherData.t,
    formatCurrentWeather (payload twoDays twoHours) london 10 = inr w /\
    WeatherData.feelsLike w = NaN /\
    WeatherData.humidity w = NaN /\
    WeatherData.pressure w = NaN /\
    WeatherData.clouds w = NaN /\
    WeatherData.visibility w = NaN.
Proof.
  split; [simpl; lia|]. eexists. split; [reflexivity|]. repeat split.
Qed.

Lemma current_hour_beyond_axis_sample :
  (length (Hourly.apparent_temperature twoHours) <= 10)%nat /\
  exists w : WeatherData.t,
    formatCurrentWeather (payload twoDays twoHours) london 10 = inr w /\
    WeatherData.feelsLike w = NaN.
Proof.
  assert (Hlen : (length (Hourly.apparent_temperature twoHours) <= 10)%nat)
    by (simpl; lia).
  split; [exact Hlen|].
  destruct (current_hour_beyond_axis (payload twoDays twoHours) london 10
              snapshot twoDays twoHours eq_refl eq_refl eq_refl)
    as (w & Hw & Hfeels & _).
  exists w. split; [exact Hw | exact (Hfeels Hlen)].
Defined.

Lemma iconUrl_follows_icon_sample :
  (exists w : WeatherData.t,
     formatCurrentWeather (payload twoDays twoHours) london 1 = inr w /\
     WeatherData.icon w = "10d" /\
     WeatherData.iconUrl w =
       "https://openweathermap.org/img/wn/" ++ WeatherData.icon w ++ "@2x.png") /\
  (exists (f : ForecastData.t) (day : DailyForecast.t),
     formatForecast (payload twoDays twoHours) london = inr f /\
     In day (ForecastData.forecast f) /\
     DailyForecast.icon day = "04d" /\
     DailyForecast.iconUrl day =
       "https://openweathermap.org/img/wn/" ++ DailyForecast.icon day
         ++ "@2x.png").
Proof.
  split.
  - eexists. split; [reflexivity|]. split; [reflexivity|].
    apply (proj1 (iconUrl_follows_icon (payload twoDays twoHours) london 1)
             _ eq_refl).
  - eexists. exists (dayForecast twoDays twoHours 1).
    split; [reflexivity|].
    assert (Hin : In (dayForecast twoDays twoHours 1)
                    [dayForecast twoDays twoHours 0; dayForecast twoDays twoHours 1])
      by (right; left; reflexivity).
    split; [exact Hin|]. split; [reflexivity|].
    apply (proj2 (iconUrl_follows_icon (payload twoDays twoHours) london 1)
             _ eq_refl _ Hin).
Defined.

(** The same request with a reverse lookup that finds London and with one
    that is rejected. *)
Lemma reverse_lookup_failure_sample :
  get_reverse axiosUnlabelled (515 # 10) 0 = inl (Rejected networkError) /\
  get_reverse axiosLabelled (515 # 10) 0 = inr londonAddress /\
  exists (current : WeatherData.t) (forecast : ForecastData.t),
    getWeatherAndForecast axiosLabelled 1 (515 # 10) 0 metric =
      inr (current, forecast) /\
    WeatherData.cityName current = "London" /\
    WeatherData.country current = "GB" /\
    getWeatherAndForecast axiosUnlabelled 1 (515 # 10) 0 metric =
      inr (unknownCurrent current, unknownForecast forecast).
Proof.
  split; [reflexivity|]. split; [reflexivity|].
  eexists. eexists. split; [reflexivity|]. split; [reflexivity|].
  split; [reflexivity|].
  apply (reverse_lookup_failure_keeps_weather
           (get_forecast axiosLabelled)
           (get_reverse axiosLabelled) (get_reverse axiosUnlabelled)
           1 (515 # 10) 0 metric (Rejected networkError) londonAddress);
    reflexivity.
Defined.

Lemma current_and_forecast_share_label_sample :
  exists (current : WeatherData.t) (forecast : ForecastData.t),
    getWeatherAndForecast axiosLabelled 1 (515 # 10) 0 metric =
      inr (current, forecast) /\
    WeatherData.cityName current = ForecastData.city forecast /\
    WeatherData.country current = ForecastData.country forecast.
Proof.
  eexists. eexists. split; [reflexivity|].
  apply (current_and_forecast_share_label axiosLabelled 1 (515 # 10) 0 metric).
  reflexivity.
Defined.

(** ** The further properties on the sample data *)


Lemma getWindDirection_undefined_sample :
  getWindDirection (- 100) = None /\
  (round_half_up (- 100 / 45) < 0 /\ round_half_up (- 100 / 45) mod 8 <> 0)%Z.
Proof.
  split; [reflexivity|].
  exact (proj1 (proj1 (getWindDirection_undefined_iff (- 100))) eq_refl).
Defined.

Lemma getWindDirection_sector_sample :
  (0 <= 1)%Z /\
  (45 * inject_Z 1 - (45 # 2) <= 45 # 2)%Q /\
  (45 # 2 < 45 * inject_Z 1 + (45 # 2))%Q /\
  getWindDirection (45 # 2) = Some "СВ".
Proof.
  assert (Hk : (0 <= 1)%Z) by lia.
  assert (Hlo : (45 * inject_Z 1 - (45 # 2) <= 45 # 2)%Q) by (vm_compute; discriminate).
  assert (Hhi : (45 # 2 < 45 * inject_Z 1 + (45 # 2))%Q) by reflexivity.
  split; [exact Hk|]. split; [exact Hlo|]. split; [exact Hhi|].
  exact (getWindDirection_sector (45 # 2) 1 Hk Hlo Hhi).
Defined.

Lemma classifier_fallback_any_number_sample :
  getWeatherDescription (Some (5 # 2)) = "Неизвестно" /\
  getWeatherIcon (Some (5 # 2)) = "01d".
Proof.
  apply (classifier_fallback_any_number (Some (5 # 2))).
  intros q z [= <-] Hz.
  repeat (destruct Hz as [<-|Hz]; [vm_compute; discriminate|]).
  destruct Hz.
Defined.

Lemma classifier_listed_any_number_sample :
  (122 # 2 == inject_Z 61)%Q /\
  In 61%Z listed_codes /\
  getWeatherDescription (Some (122 # 2)) = "Легкий дождь" /\
  In (61%Z, getWeatherIcon (Some (122 # 2))) iconMap.
Proof.
  assert (Hq : (122 # 2 == inject_Z 61)%Q) by reflexivity.
  assert (Hz : In 61%Z listed_codes) by (vm_compute; tauto).
  split; [exact Hq|]. split; [exact Hz|]. split; [reflexivity|].
  exact (proj2 (classifier_listed_any_number (122 # 2) 61 Hq Hz)).
Defined.

Lemma getAlternativeIcon_own_or_fallback_sample :
  ~ In "99x" Object_prototype /\
  ((exists glyph,
      In ("99x", glyph) alternativeIconMap /\
      getAlternativeIcon "99x" = VString glyph) \/
   (~ In "99x" (map fst alternativeIconMap) /\
    getAlternativeIcon "99x" = VString "❓")).
Proof.
  assert (Hproto : ~ In "99x" Object_prototype).
  { vm_compute. intuition discriminate. }
  split; [exact Hproto|].
  exact (getAlternativeIcon_own_or_fallback "99x" Hproto).
Defined.

Lemma unknown_description_default_icon_sample :
  getWeatherDescription (Some 4%Q) = "Неизвестно" /\
  getWeatherIcon (Some 4%Q) = "01d".
Proof.
  split; [reflexivity|].
  exact (unknown_description_default_icon (Some 4%Q) eq_refl).
Defined.

Lemma empty_bucket_averages_NaN_sample :
  exists (f : ForecastData.t) (day : DailyForecast.t),
    formatForecast (payload sixDays firstAndSixthDay) london = inr f /\
    nth_error (ForecastData.forecast f) 1 = Some day /\
    DailyForecast.hourly day = [] /\
    DailyForecast.humidity day = NaN /\
    DailyForecast.pressure day = NaN /\
    DailyForecast.windSpeed day = NaN.
Proof.
  eexists. exists (dayForecast sixDays firstAndSixthDay 1).
  split; [reflexivity|]. split; [reflexivity|]. split; [reflexivity|].
  apply (empty_bucket_averages_NaN (payload sixDays firstAndSixthDay) london
           _ _ eq_refl).
  - right. left. reflexivity.
  - reflexivity.
Defined.

Lemma day_temperatures_ordered_sample :
  (5 <= 18)%Q /\
  exists (f : ForecastData.t) (day : DailyForecast.t) (a m b : Z),
    formatForecast (payload twoDays twoHours) london = inr f /\
    nth_error (ForecastData.forecast f) 0 = Some day /\
    DailyForecast.tempMin day = Num (inject_Z a) /\
    DailyForecast.tempAvg day = Num (inject_Z m) /\
    DailyForecast.tempMax day = Num (inject_Z b) /\
    (a <= m <= b)%Z.
Proof.
  assert (Hle : (5 <= 18)%Q) by (vm_compute; discriminate).
  split; [exact Hle|].
  destruct (day_temperatures_ordered (payload twoDays twoHours) london twoDays
              _ 0 (dayForecast twoDays twoHours 0) 5 18
              eq_refl eq_refl eq_refl eq_refl eq_refl Hle)
    as (a & m & b & Ha & Hm & Hb & Horder).
  eexists. exists (dayForecast twoDays twoHours 0), a, m, b.
  split; [reflexivity|]. split; [reflexivity|]. repeat split; assumption || apply Horder.
Defined.

Lemma day_humidity_within_samples_sample :
  exists (f : ForecastData.t) (day : DailyForecast.t) (z : Z),
    formatForecast (payload oneDay twoHours) london = inr f /\
    In day (ForecastData.forecast f) /\
    DailyForecast.hourly day <> [] /\
    DailyForecast.humidity day = Num (inject_Z z) /\ (40 <= z <= 60)%Z.
Proof.
  assert (Hin : In (dayForecast oneDay twoHours 0) [dayForecast oneDay twoHours 0])
    by (left; reflexivity).
  assert (Hne : DailyForecast.hourly (dayForecast oneDay twoHours 0) <> [])
    by (vm_compute; discriminate).
  destruct (day_humidity_within_samples (payload oneDay twoHours) london _ _
              40 60 eq_refl Hin Hne) as (z & Hz & Hrange).
  { intros h Hh. vm_compute in Hh.
    destruct Hh as [<-|[<-|[]]].
    - exists 40%Z. split; [reflexivity | lia].
    - exists 60%Z. split; [reflexivity | lia]. }
  eexists. exists (dayForecast oneDay twoHours 0), z.
  split; [reflexivity|]. repeat split; assumption || apply Hrange.
Defined.

Lemma current_conditions_whole_iff_sample :
  exists w : WeatherData.t,
    formatCurrentWeather (payload twoDays twoHours) london 1 = inr w /\
    whole (WeatherData.feelsLike w) /\
    whole (WeatherData.tempMin w).
Proof.
  destruct (current_conditions_whole_iff (payload twoDays twoHours) london 1
              snapshot twoDays twoHours eq_refl eq_refl eq_refl)
    as (w & Hw & Hiff).
  exists w. split; [exact Hw|].
  assert (Hall : Daily.temperature_2m_min twoDays <> [] /\
                 Daily.temperature_2m_max twoDays <> [] /\
                 (1 < length (Hourly.apparent_temperature twoHours))%nat /\
                 (1 < length (Hourly.relative_humidity_2m twoHours))%nat /\
                 (1 < length (Hourly.pressure_msl twoHours))%nat /\
                 (1 < length (Hourly.cloudcover twoHours))%nat /\
                 (1 < length (Hourly.visibility twoHours))%nat).
  { repeat split; try discriminate; simpl; lia. }
  destruct (proj2 Hiff Hall) as (_ & Hmin & _ & Hfeels & _).
  split; assumption.
Defined.

Lemma buckets_partition_sample :
  exists f : ForecastData.t,
    formatForecast (payload oneDay twoHours) london = inr f /\
    Permutation
      (concat (map (fun day => ownedIndices twoHours (DailyForecast.date day))
                 (ForecastData.forecast f)))
      (seq 0 (length (Hourly.time twoHours))) /\
    length (concat (map DailyForecast.hourly (ForecastData.forecast f))) = 2%nat.
Proof.
  eexists. split; [reflexivity|].
  apply (buckets_partition_when_days_cover (payload oneDay twoHours) london
           twoHours _ eq_refl eq_refl).
  - vm_compute. repeat constructor. intros [].
  - intros time Hin. exists (dayForecast oneDay twoHours 0).
    split; [left; reflexivity|].
    vm_compute in Hin. destruct Hin as [<-|[<-|[]]]; reflexivity.
Defined.

Lemma facade_returns_sample :
  exists weatherData,
    getWeatherAndForecast axiosLabelled 1 (515 # 10) 0 metric = inr weatherData.
Proof.
  apply (proj2 (facade_returns_iff axiosLabelled 1 (515 # 10) 0 metric)).
  exists (payload twoDays twoHours). repeat split; discriminate.
Defined.

Lemma facade_error_message_sample :
  exists err : Error,
    getWeatherAndForecast axiosOffline 1 (515 # 10) 0 metric = inl err /\
    err = NewError "Нет соединения с сервером" /\
    message_of err <> "".
Proof.
  eexists. split; [reflexivity|]. split; [reflexivity|].
  exact (proj2 (facade_error_message_nonempty axiosOffline 1 (515 # 10) 0 metric
                  _ eq_refl)).
Defined.

Lemma reverse_label_sample :
  Location.city (getCityNameByCoords axiosUnlabelled (515 # 10) 0) = "Unknown" /\
  Location.city (getCityNameByCoords axiosUnlabelled (515 # 10) 0) <> "".
Proof.
  split; [reflexivity|].
  exact (proj1 (reverse_label_never_empty axiosUnlabelled (515 # 10) 0)).
Defined.

Lemma reverse_label_priority_sample :
  get_reverse axiosLabelled (515 # 10) 0 = inr londonAddress /\
  Location.city (getCityNameByCoords axiosLabelled (515 # 10) 0) = "London".
Proof.
  split; [reflexivity|].
  refine (proj1 (reverse_label_priority axiosLabelled (515 # 10) 0 londonAddress
                   _ "London" eq_refl eq_refl _) eq_refl).
  discriminate.
Defined.

Lemma city_not_found_sample :
  get_search networkEmpty "Atlantis" = inr [] /\
  getWeatherByCity parseSample networkEmpty 1 "Atlantis" metric =
    inl (NewError "Город не найден").
Proof.
  split; [reflexivity|].
  exact (city_not_found parseSample networkEmpty 1 "Atlantis" metric eq_refl).
Defined.

Lemma city_search_rejected_sample :
  get_search networkLimited "London" = inl (Rejected tooManyRequests) /\
  getWeatherByCity parseSample networkLimited 1 "London" metric =
    inl (NewError "Превышен лимит запросов").
Proof.
  split; [reflexivity|].
  exact (city_search_rejected parseSample networkLimited 1 "London" metric
           (Rejected tooManyRequests) eq_refl).
Defined.

Lemma city_delegates_sample :
  get_search networkFound "London" = inr [londonAddress] /\
  getWeatherByCity parseSample networkFound 1 "London" metric =
    getWeatherAndForecast (axiosAt networkFound (Num (515 # 10)) (Num 0))
      1 0 0 metric.
Proof.
  split; [reflexivity|].
  exact (city_delegates_to_coordinates parseSample networkFound 1 "London" metric
           londonAddress [] eq_refl).
Defined.

Lemma coordinates_name_sample :
  exists coords : Coordinates.t,
    getCoordinatesByCity parseSample networkFound "london" = inr (Some coords) /\
    Coordinates.name coords = "London".
Proof.
  destruct (coordinates_name_fallback parseSample networkFound "london"
              londonAddress [] eq_refl) as (coords & Hcoords & _ & _ & Hcity).
  exists coords. split; [exact Hcoords|].
  refine (Hcity _ "London" eq_refl eq_refl _). discriminate.
Defined.

Lemma searchWeather_outcome_sample :
  trim_spaces (Display.searchCity freshRefs) <> "" /\
  Display.loading
    (searchWeather parseSample trim_spaces networkFound 1 metric "2024-01-01"
       freshRefs) = false /\
  Display.error
    (searchWeather parseSample trim_spaces networkEmpty 1 metric "2024-01-01"
       freshRefs) = Some "Город не найден".
Proof.
  assert (Hname : trim_spaces (Display.searchCity freshRefs) <> "")
    by (vm_compute; discriminate).
  split; [exact Hname|]. split.
  - exact (proj1 (proj2 (proj2 (proj2
             (searchWeather_outcome parseSample trim_spaces networkFound 1 metric
                "2024-01-01" freshRefs))) Hname)).
  - reflexivity.
Defined.

Lemma searchWeather_selects_today_sample :
  exists day : DailyForecast.t,
    Display.selectedDay
      (searchWeather parseSample trim_spaces networkFound 1 metric "2024-01-02"
         freshRefs) = Some day /\
    toDateString (DailyForecast.date day) = "2024-01-02".
Proof.
  eexists. split; [reflexivity|].
  destruct (searchWeather_selects_today parseSample trim_spaces networkFound 1
              metric "2024-01-02" freshRefs _
              ltac:(vm_compute; discriminate) eq_refl)
    as (forecast & before & after & _ & _ & Htoday & _).
  exact Htoday.
Defined.

Lemma shown_wind_direction_sample :
  (0 <= CurrentWeather.winddirection snapshot)%Q /\
  exists (w : WeatherData.t) (label : string),
    formatCurrentWeather (payload twoDays twoHours) london 1 = inr w /\
    shownWindDirection w = Some label /\ In label directions.
Proof.
  assert (Hdeg : (0 <= CurrentWeather.winddirection snapshot)%Q)
    by (vm_compute; discriminate).
  split; [exact Hdeg|].
  destruct (shown_wind_direction_is_label (payload twoDays twoHours) london 1
              snapshot _ eq_refl eq_refl Hdeg) as (label & Hlabel & Hin).
  eexists. exists label. split; [reflexivity|]. split; assumption.
Defined.

Lemma returned_icons_have_glyphs_sample :
  exists (w : WeatherData.t) (glyph : string),
    formatCurrentWeather (payload twoDays twoHours) london 1 = inr w /\
    getAlternativeIcon (WeatherData.icon w) = VString glyph /\ glyph <> "❓".
Proof.
  destruct (proj1 (returned_icons_have_glyphs (payload twoDays twoHours) london 1)
              _ eq_refl) as (glyph & Hglyph & Hmark).
  eexists. exists glyph. split; [reflexivity|]. split; assumption.
Defined.
